(** * watchdog/_fsevents.c: the low-level FSEvents binding

    A shallow embedding of the four module functions ([loop], [stop],
    [schedule], [unschedule]) and of the native callback
    [event_stream_handler], over an explicit interpreter state: the two
    module dictionaries, the stream information blocks, the global
    interpreter lock, the current thread state, the per-thread error
    indicator and the chronological log of calls made into the native
    engine and into the registered callbacks. *)

From Stdlib Require Import ZArith String Ascii.
From stdpp Require Import base option list gmap.

(** ** Objects and pointers *)

(** Managed objects that the module only uses as dictionary keys or as
    callables are identified by their address. *)
Abbreviation PyObject := nat (only parsing).

(** Non-null native pointers; a nullable pointer is an [option]. *)
Abbreviation CFRunLoopRef := nat (only parsing).
Abbreviation FSEventStreamRef := nat (only parsing).
Abbreviation PyThreadState := nat (only parsing).

(** The operating-system thread that executes a call.  Core Foundation
    gives every thread exactly one run loop, so the run loop is named
    after its thread. *)
Abbreviation os_thread := nat (only parsing).

Definition CFRunLoopGetCurrent (os : os_thread) : CFRunLoopRef := os.

(** Error messages. *)
Definition CALLBACK_ERROR_MESSAGE : string := "Unable to call callback function.".

Inductive exception : Type :=
  | ValueError (msg : string)
  | TypeError (msg : string)
  | KeyError (key : PyObject)
  | MemoryError
  | SystemError
  | Raised (e : nat).

(** The objects the handler builds: strings and integers, stored in
    lists whose slots start out null. *)
Inductive pyvalue : Type :=
  | PyString (s : string)
  | PyInt (n : Z).

Abbreviation pylist := (list (option pyvalue)).

(** What a module function hands back to the interpreter. *)
Inductive PyResult : Type :=
  | Py_None
  | NULL.

(** Filesystem event stream meta information structure. *)
Record FSEventStreamInfo : Type := mkInfo {
  callback_event_handler : PyObject;
  stream : FSEventStreamRef;
  loop : CFRunLoopRef;
  thread_state : option PyThreadState
}.

(** Calls that leave the module, in the order they are made. *)
Inductive native_call : Type :=
  | call_FSEventStreamCreate (fs : FSEventStreamRef) (paths : list string)
  | call_FSEventStreamScheduleWithRunLoop (fs : FSEventStreamRef) (l : CFRunLoopRef)
  | call_FSEventStreamStart (fs : FSEventStreamRef)
  | call_FSEventStreamStop (fs : option FSEventStreamRef)
  | call_FSEventStreamInvalidate (fs : option FSEventStreamRef)
  | call_FSEventStreamRelease (fs : option FSEventStreamRef)
  | call_CFRunLoopStop (l : CFRunLoopRef)
  | call_callback (callback : PyObject) (tstate : option PyThreadState)
                  (event_path_list event_mask_list : pylist).

(** ** Interpreter state *)

Record interp : Type := mkInterp {
  (** Dictionary of all the event loops. *)
  g__pydict_loops : gmap nat nat;
  (** Dictionary of all the event streams. *)
  g__pydict_streams : gmap nat nat;
  (** The stream information blocks.  The engine keeps the address of a
      block as the context of the stream created with it, so the block
      is indexed by that stream; blocks are never freed. *)
  stream_infos : list FSEventStreamInfo;
  (** The global interpreter lock. *)
  gil_locked : bool;
  (** The current thread state ([None] is the null pointer). *)
  tstate_current : option nat;
  (** The error indicator, one per thread state. *)
  curexc : gmap nat exception;
  (** Log of the calls made so far. *)
  trace : list native_call
}.

Definition set_loops (f : gmap nat nat → gmap nat nat) (σ : interp) : interp :=
  mkInterp (f (g__pydict_loops σ)) (g__pydict_streams σ) (stream_infos σ)
           (gil_locked σ) (tstate_current σ) (curexc σ) (trace σ).

Definition set_streams (f : gmap nat nat → gmap nat nat) (σ : interp) : interp :=
  mkInterp (g__pydict_loops σ) (f (g__pydict_streams σ)) (stream_infos σ)
           (gil_locked σ) (tstate_current σ) (curexc σ) (trace σ).

Definition set_infos (f : list FSEventStreamInfo → list FSEventStreamInfo)
    (σ : interp) : interp :=
  mkInterp (g__pydict_loops σ) (g__pydict_streams σ) (f (stream_infos σ))
           (gil_locked σ) (tstate_current σ) (curexc σ) (trace σ).

Definition set_gil (b : bool) (σ : interp) : interp :=
  mkInterp (g__pydict_loops σ) (g__pydict_streams σ) (stream_infos σ)
           b (tstate_current σ) (curexc σ) (trace σ).

Definition set_tstate (ts : option nat) (σ : interp) : interp :=
  mkInterp (g__pydict_loops σ) (g__pydict_streams σ) (stream_infos σ)
           (gil_locked σ) ts (curexc σ) (trace σ).

Definition set_curexc (f : gmap nat exception → gmap nat exception)
    (σ : interp) : interp :=
  mkInterp (g__pydict_loops σ) (g__pydict_streams σ) (stream_infos σ)
           (gil_locked σ) (tstate_current σ) (f (curexc σ)) (trace σ).

Definition emit (c : native_call) (σ : interp) : interp :=
  mkInterp (g__pydict_loops σ) (g__pydict_streams σ) (stream_infos σ)
           (gil_locked σ) (tstate_current σ) (curexc σ) (trace σ ++ [c]).

(** The state the module initialiser leaves behind: two empty
    dictionaries, seen from a managed thread [ts] that holds the lock. *)
Definition init_fsevents (ts : PyThreadState) : interp :=
  mkInterp ∅ ∅ [] true (Some ts) ∅ [].

(** ** A monad for C function bodies

    A statement either falls through with a value or leaves the function
    with its return value; the interpreter state is threaded through. *)

Inductive flow (R A : Type) : Type :=
  | Next (a : A)
  | Return (r : R).
Arguments Next {R A} a.
Arguments Return {R A} r.

Definition C (R A : Type) : Type := interp → flow R A * interp.

Definition ret {R A} (a : A) : C R A := λ σ, (Next a, σ).
Definition return_ {R A} (r : R) : C R A := λ σ, (Return r, σ).
Definition bind {R A B} (c : C R A) (k : A → C R B) : C R B :=
  λ σ, match c σ with
       | (Next a, σ') => k a σ'
       | (Return r, σ') => (Return r, σ')
       end.
Definition get {R} : C R interp := λ σ, (Next σ, σ).
Definition modify {R} (f : interp → interp) : C R unit := λ σ, (Next tt, f σ).
Definition when {R} (b : bool) (c : C R unit) : C R unit := if b then c else ret tt.

(** Running a body to the end of the function. *)
Definition call {R} (body : C R R) (σ : interp) : R * interp :=
  match body σ with
  | (Next r, σ') => (r, σ')
  | (Return r, σ') => (r, σ')
  end.

#[export] Instance C_ret {R} : MRet (C R) := λ A, ret.
#[export] Instance C_bind {R} : MBind (C R) := λ A B k c, bind c k.

(** ** Outcomes decided outside the module

    The results of the runtime and engine calls that the code branches
    on are inputs of the model. *)

Inductive call_outcome : Type :=
  | call_ok
  | call_failed (raised : option exception).

Record delivery_env : Type := mkDelivery {
  path_list_ok : bool;
  mask_list_ok : bool;
  path_ok : nat → bool;
  mask_ok : nat → bool;
  callback_outcome : call_outcome
}.

Record schedule_env : Type := mkSchedule {
  cf_array_ok : bool;
  start_ok : bool
}.

(** ** The interpreter's C API, as far as the module uses it *)

Section Api.
Context {R : Type}.

Definition PyErr_Occurred : C R (option exception) :=
  λ σ, (Next (tstate_current σ ≫= λ ts, curexc σ !! ts), σ).

Definition PyErr_SetObject (e : exception) : C R unit :=
  modify (λ σ, match tstate_current σ with
               | Some ts => set_curexc (<[ts:=e]>) σ
               | None => σ
               end).

Definition PyErr_SetString (exc : string → exception) (msg : string) : C R unit :=
  PyErr_SetObject (exc msg).

(** [PyEval_AcquireLock] returns once the lock has been taken. *)
Definition PyEval_AcquireLock : C R unit := modify (set_gil true).
Definition PyEval_ReleaseLock : C R unit := modify (set_gil false).

(** Creates the lock on first use and takes it; the caller holds it
    from then on. *)
Definition PyEval_InitThreads : C R unit := modify (set_gil true).

Definition PyThreadState_Swap (new : option PyThreadState)
    : C R (option PyThreadState) :=
  λ σ, (Next (tstate_current σ), set_tstate new σ).

Definition PyThreadState_Get : C R (option PyThreadState) :=
  λ σ, (Next (tstate_current σ), σ).

(** [Py_BEGIN_ALLOW_THREADS] and [Py_END_ALLOW_THREADS]. *)
Definition PyEval_SaveThread : C R (option PyThreadState) :=
  tstate ← PyThreadState_Swap None;
  PyEval_ReleaseLock;;
  mret tstate.

Definition PyEval_RestoreThread (tstate : option PyThreadState) : C R unit :=
  PyEval_AcquireLock;;
  PyThreadState_Swap tstate;;
  mret tt.

(** Allocation: a failed allocation sets [MemoryError] and yields the
    null pointer. *)
Definition alloc {A} (ok : bool) (a : A) : C R (option A) :=
  if ok then mret (Some a) else (PyErr_SetObject MemoryError;; mret None).

Definition PyList_New (ok : bool) (size : Z) : C R (option pylist) :=
  if (size <? 0)%Z then (PyErr_SetObject SystemError;; mret None)
  else alloc ok (replicate (Z.to_nat size) None).

Definition PyString_FromString (ok : bool) (s : string) : C R (option pyvalue) :=
  alloc ok (PyString s).

Definition PyInt_FromLong (ok : bool) (n : Z) : C R (option pyvalue) :=
  alloc ok (PyInt n).

Definition PyList_SET_ITEM (l : pylist) (i : nat) (v : pyvalue) : pylist :=
  <[i:=Some v]> l.

(** Calling a callable runs managed code under the current thread
    state.  A failed call hands back the null pointer ([false]),
    usually with an exception set. *)
Definition PyObject_CallFunction (outcome : call_outcome) (callable : PyObject)
    (a b : pylist) : C R bool :=
  σ ← get;
  modify (emit (call_callback callable (tstate_current σ) a b));;
  match outcome with
  | call_ok => mret true
  | call_failed (Some e) => PyErr_SetObject e;; mret false
  | call_failed None => mret false
  end.

(** Capsules around a pointer: unwrapping the null pointer sets
    [TypeError] unless an error is already pending. *)
Definition PyCObject_AsVoidPtr (self : option nat) : C R (option nat) :=
  match self with
  | Some p => mret (Some p)
  | None =>
      e ← PyErr_Occurred;
      when (bool_decide (e = None))
        (PyErr_SetString TypeError "PyCObject_AsVoidPtr called with null pointer");;
      mret None
  end.
End Api.

(** The two module dictionaries are globals: a dictionary is named by
    its field, and written through the matching setter. *)
Class GlobalDict (g : interp → gmap nat nat) : Type :=
  dict_set : (gmap nat nat → gmap nat nat) → interp → interp.
Arguments dict_set g {_} f σ.

#[export] Instance loops_dict : GlobalDict g__pydict_loops := set_loops.
#[export] Instance streams_dict : GlobalDict g__pydict_streams := set_streams.

Section Dict.
Context {R : Type} (g : interp → gmap nat nat) `{!GlobalDict g}.

(** Null when the key is missing; no exception is set. *)
Definition PyDict_GetItem (key : PyObject) : C R (option nat) :=
  λ σ, (Next (g σ !! key), σ).

Definition PyDict_Contains (key : PyObject) : C R Z :=
  λ σ, (Next (if g σ !! key is Some _ then 1%Z else 0%Z), σ).

Definition PyDict_SetItem (key : PyObject) (value : nat) : C R unit :=
  modify (dict_set g (<[key:=value]>)).

(** 0 on success; -1 with [KeyError] when the key is missing. *)
Definition PyDict_DelItem (key : PyObject) : C R Z :=
  σ ← get;
  match g σ !! key with
  | Some _ => modify (dict_set g (delete key));; mret 0%Z
  | None => PyErr_SetObject (KeyError key);; mret (-1)%Z
  end.
End Dict.

(** ** The native engine *)

Section Native.
Context {R : Type}.

Definition CFRunLoopStop (l : CFRunLoopRef) : C R unit :=
  modify (emit (call_CFRunLoopStop l)).

Definition CFArrayCreateMutable (ok : bool) : C R (option (list string)) :=
  mret (if ok then Some [] else None).

(** Replaces the value at [idx], or appends when [idx] is the count. *)
Definition CFArraySetValueAtIndex (a : list string) (idx : nat) (v : string)
    : list string :=
  if decide (idx = length a) then a ++ [v] else <[idx:=v]> a.

(** The new stream is named after the information block that is made
    for it.  The name stands for the stream as long as it lives; the
    engine may hand out the address of a released stream again, so
    nothing follows from two streams having different names. *)
Definition FSEventStreamCreate (pathsToWatch : list string) : C R FSEventStreamRef :=
  σ ← get;
  let fs := length (stream_infos σ) in
  modify (emit (call_FSEventStreamCreate fs pathsToWatch));;
  mret fs.

Definition FSEventStreamScheduleWithRunLoop (fs : FSEventStreamRef)
    (l : CFRunLoopRef) : C R unit :=
  modify (emit (call_FSEventStreamScheduleWithRunLoop fs l)).

Definition FSEventStreamStart (ok : bool) (fs : FSEventStreamRef) : C R bool :=
  modify (emit (call_FSEventStreamStart fs));; mret ok.

Definition FSEventStreamStop (fs : option FSEventStreamRef) : C R unit :=
  modify (emit (call_FSEventStreamStop fs)).

Definition FSEventStreamInvalidate (fs : option FSEventStreamRef) : C R unit :=
  modify (emit (call_FSEventStreamInvalidate fs)).

Definition FSEventStreamRelease (fs : option FSEventStreamRef) : C R unit :=
  modify (emit (call_FSEventStreamRelease fs)).
End Native.

(** ** The module

    The functions take their arguments as already parsed from the
    argument tuple.  Reference counts are not modelled.  A path is a
    string of bytes; the engine is handed the text these bytes encode,
    and the bytes are taken to be well-formed UTF-8. *)

(** A C string ends at its first NUL byte: what a reader of a buffer
    holding [s] sees. *)
Fixpoint c_string (s : string) : string :=
  match s with
  | EmptyString => EmptyString
  | String c s' =>
      if Ascii.eqb c Ascii.zero then EmptyString else String c (c_string s')
  end.

(** The buffer of a Python string object: all its bytes, NUL bytes
    included. *)
Definition PyString_AS_STRING (s : string) : string := s.

(** The Core Foundation string made from a C string. *)
Definition CFStringCreateWithCString (cStr : string) : string := c_string cStr.

(** Strings without a NUL byte. *)
Fixpoint nul_free (s : string) : bool :=
  match s with
  | EmptyString => true
  | String c s' => negb (Ascii.eqb c Ascii.zero) && nul_free s'
  end.

(** An [FSEventStreamEventFlags] value is an unsigned 32-bit integer; it
    widens to a (64-bit) [long] without changing value. *)
Definition long_of_FSEventStreamEventFlags (m : Z) : Z := (m mod 2 ^ 32)%Z.

(** Enumerate event paths and masks into python lists: the body of the
    [for] loop of [event_stream_handler], [n] iterations from index [i]. *)
Fixpoint enumerate_events (env : delivery_env) (event_paths : list string)
    (event_masks : list Z) (n i : nat) (event_path_list event_mask_list : pylist)
    : C unit (pylist * pylist) :=
  match n with
  | O => mret (event_path_list, event_mask_list)
  | S n' =>
      event_path ← PyString_FromString (path_ok env i) (nth i event_paths ""%string);
      event_mask ← PyInt_FromLong (mask_ok env i)
                     (long_of_FSEventStreamEventFlags (nth i event_masks 0%Z));
      match event_mask, event_path with
      | Some m, Some p =>
          enumerate_events env event_paths event_masks n' (S i)
            (PyList_SET_ITEM event_path_list i p)
            (PyList_SET_ITEM event_mask_list i m)
      | _, _ => return_ tt
      end
  end.

(** Handles streamed events and calls the callback defined in Python
    code. *)
Definition event_stream_handler (env : delivery_env)
    (stream_info : FSEventStreamInfo) (num_events : Z)
    (event_paths : list string) (event_masks : list Z) : C unit unit :=
  (* Acquire lock and save thread state. *)
  PyEval_AcquireLock;;
  saved_thread_state ← PyThreadState_Swap (thread_state stream_info);
  (* Create Python lists that will contain event paths and masks. *)
  event_path_list ← PyList_New (path_list_ok env) num_events;
  event_mask_list ← PyList_New (mask_list_ok env) num_events;
  match event_path_list, event_mask_list with
  | Some event_path_list, Some event_mask_list =>
      lists ← enumerate_events env event_paths event_masks
                 (Z.to_nat num_events) 0 event_path_list event_mask_list;
      (* Call the callback event handler function. *)
      called ← PyObject_CallFunction (callback_outcome env)
                 (callback_event_handler stream_info) lists.1 lists.2;
      when (negb called)
        (e ← PyErr_Occurred;
         when (bool_decide (e = None))
           (PyErr_SetString ValueError CALLBACK_ERROR_MESSAGE);;
         (* Stop listening for events. *)
         CFRunLoopStop (loop stream_info));;
      (* Restore original thread state and release lock. *)
      PyThreadState_Swap saved_thread_state;;
      PyEval_ReleaseLock
  | _, _ => return_ tt
  end.

(** Runs an event loop in a thread.  The part before the blocking call:
    the loop of the calling thread is stored under [thread] unless the
    dictionary already has an entry, then the lock is given up. *)
Definition pyfsevents_loop_enter (os : os_thread) (thread : PyObject)
    : C PyResult (option PyThreadState) :=
  PyEval_InitThreads;;
  value ← PyDict_GetItem g__pydict_loops thread;
  when (bool_decide (value = None))
    (let loop := CFRunLoopGetCurrent os in
     PyDict_SetItem g__pydict_loops thread loop);;
  PyEval_SaveThread.

(** The part after the blocking call: clean up state information data. *)
Definition pyfsevents_loop_leave (_save : option PyThreadState) (thread : PyObject)
    : C PyResult PyResult :=
  PyEval_RestoreThread _save;;
  PyDict_DelItem g__pydict_loops thread;;
  e ← PyErr_Occurred;
  if e is Some _ then return_ NULL else mret Py_None.

(** [CFRunLoopRun] stands for everything that happens while the thread
    is blocked in the run loop, until the run loop is left. *)
Definition pyfsevents_loop (os : os_thread) (CFRunLoopRun : interp → interp)
    (thread : PyObject) : C PyResult PyResult :=
  _save ← pyfsevents_loop_enter os thread;
  modify CFRunLoopRun;;
  pyfsevents_loop_leave _save thread.

(** Create a paths array: the [for] loop of [pyfsevents_schedule]. *)
Fixpoint schedule_paths (paths : list string) (n i : nat)
    (cf_array_paths : list string) : list string :=
  match n with
  | O => cf_array_paths
  | S n' =>
      let path := PyString_AS_STRING (nth i paths ""%string) in
      let cf_string_path := CFStringCreateWithCString path in
      schedule_paths paths n' (S i)
        (CFArraySetValueAtIndex cf_array_paths i cf_string_path)
  end.

(** Schedules a stream. *)
Definition pyfsevents_schedule (env : schedule_env) (os : os_thread)
    (thread stream callback : PyObject) (paths : list string)
    : C PyResult PyResult :=
  (* Stream must not already be scheduled. *)
  scheduled ← PyDict_Contains g__pydict_streams stream;
  when (bool_decide (scheduled = 1%Z)) (return_ NULL);;
  (* Create a paths array. *)
  cf_array_paths ← CFArrayCreateMutable (cf_array_ok env);
  match cf_array_paths with
  | None => return_ NULL
  | Some cf_array_paths =>
      let paths_size := length paths in
      let cf_array_paths := schedule_paths paths paths_size 0 cf_array_paths in
      (* Create event stream. *)
      fs_stream ← FSEventStreamCreate cf_array_paths;
      PyDict_SetItem g__pydict_streams stream fs_stream;;
      (* Get runloop reference from observer info data or current
         (a stored capsule is never null, so unwrapping it gives the
         loop). *)
      value ← PyDict_GetItem g__pydict_loops thread;
      let loop := match value with
                  | None => CFRunLoopGetCurrent os
                  | Some l => l
                  end in
      FSEventStreamScheduleWithRunLoop fs_stream loop;;
      (* Set stream info for callback. *)
      tstate ← PyThreadState_Get;
      modify (set_infos (λ infos, infos ++ [mkInfo callback fs_stream loop tstate]));;
      (* Start event streams. *)
      started ← FSEventStreamStart (start_ok env) fs_stream;
      when (negb started)
        (FSEventStreamInvalidate (Some fs_stream);;
         FSEventStreamRelease (Some fs_stream);;
         return_ NULL);;
      mret Py_None
  end.

(** Unschedules a stream. *)
Definition pyfsevents_unschedule (stream : PyObject) : C PyResult PyResult :=
  value ← PyDict_GetItem g__pydict_streams stream;
  fs_stream ← PyCObject_AsVoidPtr value;
  PyDict_DelItem g__pydict_streams stream;;
  FSEventStreamStop fs_stream;;
  FSEventStreamInvalidate fs_stream;;
  FSEventStreamRelease fs_stream;;
  mret Py_None.

(** Stops running the event loop in the specified thread. *)
Definition pyfsevents_stop (thread : PyObject) : C PyResult PyResult :=
  value ← PyDict_GetItem g__pydict_loops thread;
  loop ← PyCObject_AsVoidPtr value;
  (* Stop runloop *)
  (if loop is Some l then CFRunLoopStop l else mret tt);;
  mret Py_None.

(** ** The module in operation

    Under the lock every module function and every delivery runs to
    completion, so the life of the process is a sequence of such steps.
    [step_interpreter] covers the managed code in between: it may hand
    the lock and the current thread state to another thread and may set
    or clear error indicators, but it cannot reach the module's data. *)
Inductive step : interp → interp → Prop :=
  | step_interpreter locked ts exc σ :
      step σ (set_gil locked (set_tstate ts (set_curexc (λ _, exc) σ)))
  | step_loop_enter os thread σ :
      step σ (pyfsevents_loop_enter os thread σ).2
  | step_loop_leave _save thread σ :
      step σ (call (pyfsevents_loop_leave _save thread) σ).2
  | step_schedule env os thread stream callback paths σ :
      step σ (call (pyfsevents_schedule env os thread stream callback paths) σ).2
  | step_unschedule stream σ :
      step σ (call (pyfsevents_unschedule stream) σ).2
  | step_stop thread σ :
      step σ (call (pyfsevents_stop thread) σ).2
  | step_deliver env fs stream_info num_events event_paths event_masks σ :
      stream_infos σ !! fs = Some stream_info →
      step σ (call (event_stream_handler env stream_info num_events
                      event_paths event_masks) σ).2.

(** The calls a function adds to the log. *)
Definition calls_since (σ σ' : interp) : list native_call :=
  drop (length (trace σ)) (trace σ').

(** A delivery in which every object the handler asks for is built. *)
Definition marshalled (env : delivery_env) (count : nat) : Prop :=
  path_list_ok env = true ∧ mask_list_ok env = true ∧
  ∀ i, i < count → path_ok env i = true ∧ mask_ok env i = true.

(** What the handler logs after a call of the callback. *)
Definition after_callback (outcome : call_outcome) (l : CFRunLoopRef)
    : list native_call :=
  match outcome with
  | call_ok => []
  | call_failed _ => [call_CFRunLoopStop l]
  end.

(** The error left pending by a failed call of the callback, given the
    error that was pending when the call was made. *)
Definition pending_after_failure (raised pending : option exception) : exception :=
  match raised, pending with
  | Some e, _ => e
  | None, Some e => e
  | None, None => ValueError CALLBACK_ERROR_MESSAGE
  end.

(** Everything but the error indicators is the same in both states. *)
Definition same_but_curexc (σ σ' : interp) : Prop :=
  σ' = set_curexc (λ _, curexc σ') σ.

(** The error indicators after a delivery whose callback was called. *)
Definition curexc_after_callback (outcome : call_outcome)
    (tstate : option PyThreadState) (exc : gmap nat exception) : gmap nat exception :=
  match outcome, tstate with
  | call_failed raised, Some ts => <[ts:=pending_after_failure raised (exc !! ts)]> exc
  | _, _ => exc
  end.

(** ** Scenarios used in the examples *)

(** The state in which deliveries arrive in the examples: thread state 1
    has scheduled stream 20 with callback 30 on the loop of thread 3 and
    has since given up the lock. *)
Definition delivery_state : interp :=
  set_tstate None (set_gil false
    (call (pyfsevents_schedule (mkSchedule true true) 3 10 20 30
             ["/tmp/watchme"%string]) (init_fsevents 1)).2).

Definition delivery_info : FSEventStreamInfo := mkInfo 30 0 3 (Some 1).

(** Thread state 1 schedules stream 20 on an engine that fails to start
    it. *)
Definition failed_schedule : PyResult * interp :=
  call (pyfsevents_schedule (mkSchedule true false) 3 10 20 30
          ["/tmp/watchme"%string]) (init_fsevents 1).

(** Thread state 1 schedules stream 20, then unschedules it twice. *)
Definition scheduled : PyResult * interp :=
  call (pyfsevents_schedule (mkSchedule true true) 3 10 20 30
          ["/tmp/watchme"%string]) (init_fsevents 1).
Definition unscheduled_once : PyResult * interp :=
  call (pyfsevents_unschedule 20) scheduled.2.
Definition unscheduled_twice : PyResult * interp :=
  call (pyfsevents_unschedule 20) unscheduled_once.2.

(** Thread state 1, having scheduled stream 20, calls [stop] on thread
    handle 10, which has no loop. *)
Definition stop_unregistered : PyResult * interp :=
  call (pyfsevents_stop 10) scheduled.2.

(** Thread 2 runs [loop] under thread handle 10.  While it is blocked,
    thread 1 takes the lock, schedules stream 20 on thread handle 10 and
    gives the lock up again; the engine then delivers one event on the
    run loop of thread 2 and the callback raises. *)
Definition cross_thread_delivery : delivery_env :=
  mkDelivery true true (λ _, true) (λ _, true) (call_failed (Some (Raised 9))).

Definition cross_thread_run (σ : interp) : interp :=
  let σa := set_tstate (Some 1) (set_gil true σ) in
  let σb := (call (pyfsevents_schedule (mkSchedule true true) 1 10 20 30
                     ["/tmp/watchme"%string]) σa).2 in
  let σc := set_tstate None (set_gil false σb) in
  match stream_infos σc !! 0 with
  | Some stream_info =>
      (call (event_stream_handler cross_thread_delivery stream_info 1
               ["/tmp/watchme/a"%string] [256%Z]) σc).2
  | None => σc
  end.

Definition cross_thread_loop : PyResult * interp :=
  call (pyfsevents_loop 2 cross_thread_run 10) (init_fsevents 2).

(** ** Reachable states and what the log holds *)

(** The states the process can be in after the module was initialised by
    the thread with thread state [ts]. *)
Definition reachable (ts : PyThreadState) (σ : interp) : Prop :=
  rtc step (init_fsevents ts) σ.

(** A logged call is either a call of the engine or a call of the
    callback of some information block, made under the thread state
    stored in that block. *)
Definition callback_of_block (σ : interp) (c : native_call) : Prop :=
  match c with
  | call_callback cb ts _ _ =>
      ∃ fs stream_info,
        stream_infos σ !! fs = Some stream_info
        ∧ callback_event_handler stream_info = cb
        ∧ thread_state stream_info = ts
  | _ => True
  end.

(** A state with a delivery in its log: the stream of [delivery_state]
    has had one batch delivered. *)
Definition delivered_state : interp :=
  (call (event_stream_handler (mkDelivery true true (λ _, true) (λ _, true) call_ok)
           delivery_info 2 ["/tmp/watchme/a"; "/tmp/watchme/b"]%string [256; 512]%Z)
     delivery_state).2.

(** Every stream in the stream dictionary has its information block,
    and every block sits at the index of the stream it was made for. *)
Definition streams_have_blocks (σ : interp) : Prop :=
  (∀ fs stream_info, stream_infos σ !! fs = Some stream_info → stream stream_info = fs)
  ∧ (∀ h fs, g__pydict_streams σ !! h = Some fs → fs < length (stream_infos σ)).

(** Thread 2 is blocked in [loop] under handle 10 while thread 4 runs
    [loop] under the same handle from start to end. *)
Definition nested_loop_run (σ : interp) : interp :=
  (call (pyfsevents_loop 4 (λ σ0, σ0) 10) (set_tstate (Some 4) (set_gil true σ))).2.

(** * Properties *)

Ltac unfold_api :=
  unfold call, pyfsevents_schedule, pyfsevents_unschedule, pyfsevents_stop,
    pyfsevents_loop, pyfsevents_loop_enter, pyfsevents_loop_leave,
    PyDict_Contains, PyDict_GetItem, PyDict_SetItem, PyDict_DelItem,
    PyCObject_AsVoidPtr, PyErr_Occurred, PyErr_SetString, PyErr_SetObject,
    PyEval_SaveThread, PyEval_RestoreThread, PyEval_InitThreads,
    PyEval_AcquireLock, PyEval_ReleaseLock, PyThreadState_Swap, PyThreadState_Get,
    PyList_New, PyString_FromString, PyInt_FromLong, PyObject_CallFunction, alloc,
    CFArrayCreateMutable, FSEventStreamCreate, FSEventStreamScheduleWithRunLoop,
    FSEventStreamStart, FSEventStreamStop, FSEventStreamInvalidate,
    FSEventStreamRelease, CFRunLoopStop,
    when, mbind, mret, C_bind, C_ret, bind, ret, return_, modify, get, dict_set,
    loops_dict, streams_dict.

Ltac unfold_state :=
  unfold set_gil, set_tstate, set_curexc, set_loops, set_streams, set_infos, emit;
  simpl.

(** ** Framing: what the error indicator does not touch *)

Lemma same_but_curexc_refl σ : same_but_curexc σ σ.
Proof. by destruct σ. Qed.

Lemma same_but_curexc_trans σ1 σ2 σ3 :
  same_but_curexc σ1 σ2 → same_but_curexc σ2 σ3 → same_but_curexc σ1 σ3.
Proof. unfold same_but_curexc. intros -> ->. by destruct σ1. Qed.

Lemma same_but_curexc_set f σ : same_but_curexc σ (set_curexc f σ).
Proof. by destruct σ. Qed.

Lemma PyErr_SetObject_frame {R} e σ :
  ∃ σ', PyErr_SetObject (R:=R) e σ = (Next tt, σ') ∧ same_but_curexc σ σ'.
Proof.
  unfold PyErr_SetObject, modify. eexists; split; [done|].
  destruct (tstate_current σ);
    [apply same_but_curexc_set | apply same_but_curexc_refl].
Qed.

Lemma alloc_frame {R A} ok (a : A) σ :
  ∃ σ', alloc (R:=R) ok a σ = (Next (if ok then Some a else None), σ')
        ∧ same_but_curexc σ σ' ∧ (ok = true → σ' = σ).
Proof.
  unfold alloc. destruct ok.
  - exists σ. split_and!; [done | apply same_but_curexc_refl | done].
  - destruct (PyErr_SetObject_frame (R:=R) MemoryError σ) as (σ' & E & F).
    exists σ'. unfold mbind, C_bind, bind. rewrite E. by split_and!.
Qed.

(** ** The marshalling loop *)

Lemma enumerate_events_frame env event_paths event_masks n :
  ∀ i pl ml σ, ∃ r σ',
    enumerate_events env event_paths event_masks n i pl ml σ = (r, σ')
    ∧ same_but_curexc σ σ'.
Proof.
  induction n as [|n IH]; intros i pl ml σ; simpl.
  - eexists _, σ. split; [done | apply same_but_curexc_refl].
  - unfold PyString_FromString, PyInt_FromLong, mbind, C_bind, bind.
    destruct (alloc_frame (R:=unit) (path_ok env i)
                (PyString (nth i event_paths ""%string)) σ) as (σ1 & -> & F1 & _).
    destruct (alloc_frame (R:=unit) (mask_ok env i)
                (PyInt (long_of_FSEventStreamEventFlags (nth i event_masks 0%Z))) σ1)
      as (σ2 & -> & F2 & _).
    pose proof (same_but_curexc_trans _ _ _ F1 F2) as F.
    destruct (mask_ok env i), (path_ok env i);
      try (by eexists _, σ2; split; [done | exact F]).
    destruct (IH (S i) (PyList_SET_ITEM pl i (PyString (nth i event_paths ""%string)))
                (PyList_SET_ITEM ml i
                   (PyInt (long_of_FSEventStreamEventFlags (nth i event_masks 0%Z)))) σ2)
      as (r & σ3 & E & F3).
    exists r, σ3. split; [exact E | by eapply same_but_curexc_trans].
Qed.

(** When every element is built the loop fills the slots [i .. i+n-1]
    in order, touches no other slot, and leaves the state alone. *)
Lemma enumerate_events_ok env event_paths event_masks n :
  ∀ i (pl ml : pylist) σ,
    (∀ j, i ≤ j < i + n → path_ok env j = true ∧ mask_ok env j = true) →
    ∃ pl' ml' : pylist,
      enumerate_events env event_paths event_masks n i pl ml σ = (Next (pl', ml'), σ)
      ∧ length pl' = length pl ∧ length ml' = length ml
      ∧ (∀ j, pl' !! j =
              if decide (i ≤ j < i + n ∧ j < length pl)
              then Some (Some (PyString (nth j event_paths ""%string)))
              else pl !! j)
      ∧ (∀ j, ml' !! j =
              if decide (i ≤ j < i + n ∧ j < length ml)
              then Some (Some (PyInt (long_of_FSEventStreamEventFlags
                                        (nth j event_masks 0%Z))))
              else ml !! j).
Proof.
  induction n as [|n IH]; intros i pl ml σ Hok; simpl.
  - exists pl, ml. split_and!; try done; intros j; case_decide; try done; lia.
  - destruct (Hok i ltac:(lia)) as [Hp Hm].
    unfold PyString_FromString, PyInt_FromLong, alloc, mbind, mret, C_bind, C_ret,
      bind, ret.
    rewrite Hp, Hm.
    destruct (IH (S i) (PyList_SET_ITEM pl i (PyString (nth i event_paths ""%string)))
                (PyList_SET_ITEM ml i
                   (PyInt (long_of_FSEventStreamEventFlags (nth i event_masks 0%Z)))) σ)
      as (pl' & ml' & E & Lp & Lm & Ep & Em).
    { intros j Hj. apply Hok. lia. }
    unfold PyList_SET_ITEM in *. rewrite length_insert in Lp, Lm, Ep, Em.
    exists pl', ml'. split_and!; [exact E | exact Lp | exact Lm | |].
    + intros j. rewrite Ep. destruct (decide (j = i)) as [->|Hne].
      * repeat case_decide; try lia.
        -- by rewrite list_lookup_insert_eq by lia.
        -- by rewrite list_insert_ge by lia.
      * rewrite list_lookup_insert_ne by done.
        repeat case_decide; try done; lia.
    + intros j. rewrite Em. destruct (decide (j = i)) as [->|Hne].
      * repeat case_decide; try lia.
        -- by rewrite list_lookup_insert_eq by lia.
        -- by rewrite list_insert_ge by lia.
      * rewrite list_lookup_insert_ne by done.
        repeat case_decide; try done; lia.
Qed.

Lemma PyList_New_frame {R} ok size σ :
  ∃ r σ', PyList_New (R:=R) ok size σ = (Next r, σ') ∧ same_but_curexc σ σ'.
Proof.
  unfold PyList_New. destruct (size <? 0)%Z.
  - destruct (PyErr_SetObject_frame (R:=R) SystemError σ) as (σ' & E & F).
    exists None, σ'. unfold mbind, C_bind, bind. by rewrite E.
  - destruct (alloc_frame (R:=R) ok (replicate (Z.to_nat size) (@None pyvalue)) σ)
      as (σ' & E & F & _).
    eauto.
Qed.

(** ** The delivery handler *)

(** The complete effect of a delivery whose lists and elements are all
    built: one call of the callback under the stored thread state, a
    stop request when that call failed, then the previous thread state
    back in place and the lock free. *)
Lemma event_stream_handler_marshalled env stream_info count event_paths event_masks σ :
  marshalled env count →
  ∃ pl ml : pylist,
    call (event_stream_handler env stream_info (Z.of_nat count)
            event_paths event_masks) σ
    = (tt, mkInterp (g__pydict_loops σ) (g__pydict_streams σ) (stream_infos σ)
             false (tstate_current σ)
             (curexc_after_callback (callback_outcome env)
                (thread_state stream_info) (curexc σ))
             (trace σ ++ call_callback (callback_event_handler stream_info)
                           (thread_state stream_info) pl ml
                         :: after_callback (callback_outcome env) (loop stream_info)))
    ∧ length pl = count ∧ length ml = count
    ∧ (∀ j, j < count →
         pl !! j = Some (Some (PyString (nth j event_paths ""%string))))
    ∧ (∀ j, j < count →
         ml !! j = Some (Some (PyInt (long_of_FSEventStreamEventFlags
                                        (nth j event_masks 0%Z))))).
Proof.
  intros (Hpl & Hml & Hitems).
  set (σ1 := set_tstate (thread_state stream_info) (set_gil true σ)).
  destruct (enumerate_events_ok env event_paths event_masks count 0
              (replicate count None) (replicate count None) σ1)
    as (pl & ml & E & Lp & Lm & Ep & Em).
  { intros j Hj. apply Hitems. lia. }
  rewrite length_replicate in Lp, Lm, Ep, Em.
  exists pl, ml. split_and!; [| exact Lp | exact Lm | |].
  - unfold event_stream_handler, call, PyList_New, alloc, PyEval_AcquireLock,
      PyThreadState_Swap, mbind, mret, C_bind, C_ret, bind, ret, modify.
    rewrite Hpl, Hml.
    replace (Z.of_nat count <? 0)%Z with false by lia.
    rewrite Nat2Z.id. fold σ1. rewrite E.
    unfold PyObject_CallFunction, PyErr_Occurred, PyErr_SetString, PyErr_SetObject,
      CFRunLoopStop, PyEval_ReleaseLock, when, mbind, mret, C_bind, C_ret, bind, ret,
      modify, get, curexc_after_callback, after_callback, pending_after_failure.
    subst σ1.
    destruct (callback_outcome env) as [|[e|]], (thread_state stream_info) as [ts|];
      simpl; rewrite ?lookup_insert_eq; unfold_state; rewrite <- ?app_assoc;
      try done.
    destruct (curexc σ !! ts) as [e0|] eqn:Hts; unfold_state; rewrite <- ?app_assoc.
    + by rewrite insert_id.
    + done.
  - intros j Hj. rewrite Ep. case_decide; [done | lia].
  - intros j Hj. rewrite Em. case_decide; [done | lia].
Qed.

Lemma same_but_curexc_fields σ σ' :
  same_but_curexc σ σ' →
  g__pydict_loops σ' = g__pydict_loops σ
  ∧ g__pydict_streams σ' = g__pydict_streams σ
  ∧ stream_infos σ' = stream_infos σ
  ∧ gil_locked σ' = gil_locked σ
  ∧ tstate_current σ' = tstate_current σ
  ∧ trace σ' = trace σ.
Proof. intros ->. by destruct σ. Qed.

(** Whatever the runtime and the callback do, a delivery either leaves
    before the callback is called, holding the lock with the stored
    thread state still current, or calls the callback once under the
    stored thread state and then puts back what it found.  It never
    touches the dictionaries or the information blocks. *)
Lemma event_stream_handler_cases env stream_info num_events event_paths event_masks σ :
  let σ' := (call (event_stream_handler env stream_info num_events
                     event_paths event_masks) σ).2 in
  g__pydict_loops σ' = g__pydict_loops σ
  ∧ g__pydict_streams σ' = g__pydict_streams σ
  ∧ stream_infos σ' = stream_infos σ
  ∧ ((trace σ' = trace σ ∧ gil_locked σ' = true
      ∧ tstate_current σ' = thread_state stream_info)
     ∨ (∃ pl ml : pylist,
          trace σ' = trace σ ++ call_callback (callback_event_handler stream_info)
                                  (thread_state stream_info) pl ml
                                :: after_callback (callback_outcome env)
                                     (loop stream_info)
          ∧ gil_locked σ' = false
          ∧ tstate_current σ' = tstate_current σ)).
Proof.
  set (σ1 := set_tstate (thread_state stream_info) (set_gil true σ)).
  assert (early : ∀ σ2, same_but_curexc σ1 σ2 →
            g__pydict_loops σ2 = g__pydict_loops σ
            ∧ g__pydict_streams σ2 = g__pydict_streams σ
            ∧ stream_infos σ2 = stream_infos σ
            ∧ trace σ2 = trace σ ∧ gil_locked σ2 = true
            ∧ tstate_current σ2 = thread_state stream_info).
  { intros σ2 F. apply same_but_curexc_fields in F. by destruct F as (->&->&->&->&->&->). }
  assert (early' : ∀ σ2, same_but_curexc σ1 σ2 →
            g__pydict_loops σ2 = g__pydict_loops σ
            ∧ g__pydict_streams σ2 = g__pydict_streams σ
            ∧ stream_infos σ2 = stream_infos σ
            ∧ ((trace σ2 = trace σ ∧ gil_locked σ2 = true
                ∧ tstate_current σ2 = thread_state stream_info)
               ∨ (∃ pl ml : pylist,
                    trace σ2 = trace σ ++ call_callback
                                 (callback_event_handler stream_info)
                                 (thread_state stream_info) pl ml
                               :: after_callback (callback_outcome env)
                                    (loop stream_info)
                    ∧ gil_locked σ2 = false
                    ∧ tstate_current σ2 = tstate_current σ))).
  { intros σ2 F. destruct (early σ2 F) as (?&?&?&?&?&?). split_and!; try done.
    left. done. }
  unfold event_stream_handler, call, PyEval_AcquireLock, PyThreadState_Swap,
    mbind, C_bind, bind, modify. fold σ1.
  destruct (PyList_New_frame (R:=unit) (path_list_ok env) num_events σ1)
    as (r1 & σ2 & -> & F1).
  destruct (PyList_New_frame (R:=unit) (mask_list_ok env) num_events σ2)
    as (r2 & σ3 & -> & F2).
  pose proof (same_but_curexc_trans _ _ _ F1 F2) as F12.
  destruct r1 as [pl0|], r2 as [ml0|]; try (by apply early').
  destruct (enumerate_events_frame env event_paths event_masks
              (Z.to_nat num_events) 0 pl0 ml0 σ3) as (r & σ4 & -> & F3).
  pose proof (same_but_curexc_trans _ _ _ F12 F3) as F.
  destruct r as [[pl ml]|[]]; [| by apply early'].
  destruct (early σ4 F) as (El & Es & Ei & Et & Eg & Ets).
  destruct σ4 as [l4 s4 i4 g4 t4 c4 tr4]. simpl in El, Es, Ei, Et, Eg, Ets. subst.
  unfold PyObject_CallFunction, PyErr_Occurred, PyErr_SetString, PyErr_SetObject,
    CFRunLoopStop, PyEval_ReleaseLock, PyThreadState_Swap, when, mbind, mret,
    C_bind, C_ret, bind, ret, modify, get, after_callback.
  split_and!;
    try (destruct (callback_outcome env) as [|[e|]],
           (thread_state stream_info) as [ts|];
         simpl; rewrite ?lookup_insert_eq; simpl; try done;
         by case_bool_decide).
  right. exists pl, ml.
  destruct (callback_outcome env) as [|[e|]], (thread_state stream_info) as [ts|];
    simpl; rewrite ?lookup_insert_eq; simpl; rewrite <- ?app_assoc; try done.
  case_bool_decide; simpl; by rewrite <- ?app_assoc.
Qed.

(** A delivery whose objects are all built gives the lock back and puts
    the previous thread state back, whether the callback succeeds or
    fails. *)
Lemma event_stream_handler_releases env stream_info count event_paths event_masks σ :
  marshalled env count →
  let σ' := (call (event_stream_handler env stream_info (Z.of_nat count)
                     event_paths event_masks) σ).2 in
  gil_locked σ' = false ∧ tstate_current σ' = tstate_current σ.
Proof.
  intros M.
  destruct (event_stream_handler_marshalled env stream_info count
              event_paths event_masks σ M) as (pl & ml & E & _).
  simpl. by rewrite E.
Qed.

(** A delivery in which the list of paths cannot be built returns with
    the lock held and the stored thread state current. *)
Lemma event_stream_handler_list_failure env stream_info num_events
    event_paths event_masks σ :
  path_list_ok env = false →
  let σ' := (call (event_stream_handler env stream_info num_events
                     event_paths event_masks) σ).2 in
  gil_locked σ' = true ∧ tstate_current σ' = thread_state stream_info
  ∧ trace σ' = trace σ.
Proof.
  intros Hpl.
  set (σ1 := set_tstate (thread_state stream_info) (set_gil true σ)).
  unfold event_stream_handler, call, PyEval_AcquireLock, PyThreadState_Swap,
    mbind, C_bind, bind, modify. fold σ1.
  destruct (PyList_New_frame (R:=unit) (path_list_ok env) num_events σ1)
    as (r1 & σ2 & E1 & F1).
  assert (r1 = None) as ->.
  { revert E1. unfold PyList_New, alloc, mbind, mret, C_bind, C_ret, bind, ret.
    rewrite Hpl. destruct (num_events <? 0)%Z;
      destruct (PyErr_SetObject _ σ1) as [[[]|[]] ?]; congruence. }
  rewrite E1.
  destruct (PyList_New_frame (R:=unit) (mask_list_ok env) num_events σ2)
    as (r2 & σ3 & -> & F2).
  pose proof (same_but_curexc_trans _ _ _ F1 F2) as F.
  apply same_but_curexc_fields in F as (_ & _ & _ & Eg & Ets & Et).
  simpl. by rewrite Eg, Ets, Et.
Qed.

(** ** The event delivery bridge: lock and thread state *)

(** C1 (the code departs from the claim).  The handler takes the lock
    and swaps in the stored thread state at entry, but when a list or an
    element cannot be built it returns at once: the lock is still held
    and the stored thread state, not the previous one, is current.  Here
    the delivery arrives with the lock free and no current thread state;
    in the first run the list of paths is not built, in the second the
    element at index 1 is not built. *)
Example C1_handler_returns_holding_lock :
  stream_infos delivery_state !! 0 = Some delivery_info
  ∧ gil_locked delivery_state = false
  ∧ tstate_current delivery_state = None
  ∧ (let σ' := (call (event_stream_handler
                        (mkDelivery false true (λ _, true) (λ _, true) call_ok)
                        delivery_info 2 ["/tmp/watchme/a"; "/tmp/watchme/b"]%string
                        [256; 512]%Z) delivery_state).2 in
     gil_locked σ' = true ∧ tstate_current σ' = Some 1 ∧ calls_since delivery_state σ' = [])
  ∧ (let σ' := (call (event_stream_handler
                        (mkDelivery true true (λ i, bool_decide (i ≠ 1)) (λ _, true) call_ok)
                        delivery_info 2 ["/tmp/watchme/a"; "/tmp/watchme/b"]%string
                        [256; 512]%Z) delivery_state).2 in
     gil_locked σ' = true ∧ tstate_current σ' = Some 1 ∧ calls_since delivery_state σ' = []).
Proof. vm_compute. done. Qed.

(** ** Scheduling and unscheduling *)

(** Once the stream has been created [schedule] stores it in the
    dictionary; a failed start invalidates and releases the stream and
    returns the null pointer, and the dictionary keeps the entry. *)
Lemma pyfsevents_schedule_start_failed env os thread stream callback paths σ :
  g__pydict_streams σ !! stream = None →
  cf_array_ok env = true →
  start_ok env = false →
  let fs := length (stream_infos σ) in
  let r := call (pyfsevents_schedule env os thread stream callback paths) σ in
  r.1 = NULL
  ∧ g__pydict_streams r.2 = <[stream:=fs]> (g__pydict_streams σ)
  ∧ ∃ l, calls_since σ r.2 =
         [call_FSEventStreamCreate fs (schedule_paths paths (length paths) 0 []);
          call_FSEventStreamScheduleWithRunLoop fs l;
          call_FSEventStreamStart fs;
          call_FSEventStreamInvalidate (Some fs);
          call_FSEventStreamRelease (Some fs)].
Proof.
  intros Hs Ha Hst. unfold_api. rewrite Hs, Ha, Hst. simpl.
  split_and!; [done | done |].
  eexists. unfold calls_since. simpl.
  rewrite <- !app_assoc. simpl. by rewrite drop_app_length.
Qed.

(** C2 (the code departs from the claim).  When the engine fails to
    start the stream, [schedule] invalidates and releases the stream and
    returns the null pointer, but the entry it stored in the stream
    dictionary before starting is still there: the handle, absent before
    the call, is registered after it and names the released stream. *)
Example C2_failed_start_leaves_stream_registered :
  g__pydict_streams (init_fsevents 1) !! 20 = None
  ∧ failed_schedule.1 = NULL
  ∧ calls_since (init_fsevents 1) failed_schedule.2 =
      [call_FSEventStreamCreate 0 ["/tmp/watchme"%string];
       call_FSEventStreamScheduleWithRunLoop 0 3;
       call_FSEventStreamStart 0;
       call_FSEventStreamInvalidate (Some 0);
       call_FSEventStreamRelease (Some 0)]
  ∧ g__pydict_streams failed_schedule.2 !! 20 = Some 0.
Proof. vm_compute. done. Qed.

(** Unscheduling a registered handle removes it and stops, invalidates
    and releases its stream. *)
Lemma pyfsevents_unschedule_present stream fs σ :
  g__pydict_streams σ !! stream = Some fs →
  let r := call (pyfsevents_unschedule stream) σ in
  r.1 = Py_None
  ∧ g__pydict_streams r.2 = delete stream (g__pydict_streams σ)
  ∧ calls_since σ r.2 =
      [call_FSEventStreamStop (Some fs); call_FSEventStreamInvalidate (Some fs);
       call_FSEventStreamRelease (Some fs)].
Proof.
  intros Hs. unfold_api. rewrite Hs. simpl. rewrite Hs. simpl.
  split_and!; [done | done |].
  unfold calls_since. simpl. rewrite <- !app_assoc. simpl.
  by rewrite drop_app_length.
Qed.

(** Unscheduling a handle that is not registered does not fail: the
    three engine calls are made on the null stream and [None] is
    returned. *)
Lemma pyfsevents_unschedule_absent stream σ :
  g__pydict_streams σ !! stream = None →
  let r := call (pyfsevents_unschedule stream) σ in
  r.1 = Py_None
  ∧ g__pydict_streams r.2 = g__pydict_streams σ
  ∧ calls_since σ r.2 =
      [call_FSEventStreamStop None; call_FSEventStreamInvalidate None;
       call_FSEventStreamRelease None].
Proof.
  intros Hs. destruct σ as [l s i g t c tr]. simpl in Hs.
  unfold calls_since. unfold_api. simpl. rewrite Hs.
  destruct t as [ts|]; simpl; [destruct (c !! ts); simpl |];
    rewrite ?Hs; simpl; rewrite <- !app_assoc, drop_app_length; done.
Qed.

(** C3 (the code departs from the claim).  After a successful
    [schedule] of handle 20 the first [unschedule] returns [None],
    removes the handle and stops, invalidates and releases stream 0.
    The second [unschedule], on the now absent handle, returns [None] as
    well: it does not fail, and it makes the three engine calls on the
    null stream, leaving a [KeyError] pending. *)
Example C3_second_unschedule_succeeds :
  scheduled.1 = Py_None
  ∧ g__pydict_streams scheduled.2 !! 20 = Some 0
  ∧ unscheduled_once.1 = Py_None
  ∧ g__pydict_streams unscheduled_once.2 !! 20 = None
  ∧ calls_since scheduled.2 unscheduled_once.2 =
      [call_FSEventStreamStop (Some 0); call_FSEventStreamInvalidate (Some 0);
       call_FSEventStreamRelease (Some 0)]
  ∧ unscheduled_twice.1 = Py_None
  ∧ calls_since unscheduled_once.2 unscheduled_twice.2 =
      [call_FSEventStreamStop None; call_FSEventStreamInvalidate None;
       call_FSEventStreamRelease None]
  ∧ curexc unscheduled_twice.2 !! 1 = Some (KeyError 20).
Proof. vm_compute. done. Qed.

(** The paths array holds the given paths, in order, each as the C
    string in the buffer of its string object. *)
Lemma schedule_paths_spec paths n :
  ∀ i a, length a = i → i + n ≤ length paths →
    schedule_paths paths n i a
    = a ++ (CFStringCreateWithCString <$> take n (drop i paths)).
Proof.
  induction n as [|n IH]; intros i a Ha Hn.
  - simpl. by rewrite ?take_0, app_nil_r.
  - cbn [schedule_paths]. unfold CFArraySetValueAtIndex, PyString_AS_STRING.
    rewrite decide_True by done.
    rewrite IH by (rewrite ?length_app; simpl; lia).
    destruct (lookup_lt_is_Some_2 paths i ltac:(lia)) as [p Hp].
    rewrite (nth_lookup_Some _ _ _ _ Hp).
    rewrite (drop_S _ _ _ Hp). rewrite firstn_cons, fmap_cons.
    by rewrite <- app_assoc.
Qed.

Lemma schedule_paths_all paths :
  schedule_paths paths (length paths) 0 [] = CFStringCreateWithCString <$> paths.
Proof.
  rewrite schedule_paths_spec by (simpl; lia).
  simpl. by rewrite drop_0, firstn_all.
Qed.

Lemma c_string_nul_free s : nul_free s = true → c_string s = s.
Proof.
  induction s as [|c s IH]; simpl; [done |].
  destruct (Ascii.eqb c Ascii.zero); simpl; [done |].
  intros H. by rewrite IH.
Qed.

(** With an unregistered handle the outcome of [schedule] is decided by
    the engine alone: it succeeds exactly when the paths array is
    created and the stream starts, whatever the paths are. *)
Lemma pyfsevents_schedule_result env os thread stream callback paths σ :
  g__pydict_streams σ !! stream = None →
  (call (pyfsevents_schedule env os thread stream callback paths) σ).1
  = if cf_array_ok env && start_ok env then Py_None else NULL.
Proof.
  intros Hs. unfold_api. rewrite Hs. simpl.
  by destruct (cf_array_ok env), (start_ok env).
Qed.

(** C6.  Scheduling a stream handle that is present in the stream
    dictionary fails: [schedule] returns the null pointer from its first
    check and changes nothing, so the registered stream, its information
    block and the engine are left as they were, whatever the thread
    handle, callback and paths of the second call. *)
Theorem C6_schedule_registered_handle_fails env os thread stream callback paths σ fs :
  g__pydict_streams σ !! stream = Some fs →
  call (pyfsevents_schedule env os thread stream callback paths) σ = (NULL, σ).
Proof. intros Hs. unfold_api. by rewrite Hs. Qed.

Lemma C6_witness :
  g__pydict_streams scheduled.2 !! 20 = Some 0
  ∧ call (pyfsevents_schedule (mkSchedule true true) 3 10 20 31
            ["/tmp/other"%string]) scheduled.2 = (NULL, scheduled.2).
Proof.
  split; [reflexivity |].
  apply (C6_schedule_registered_handle_fails _ _ _ 20 _ _ scheduled.2 0).
  reflexivity.
Defined.

(** C10.  [schedule] does not look at the number of paths.  With an
    empty list and a handle that is not registered, once the engine
    creates the paths array and starts the stream, the call returns
    [None]: a stream watching no path has been created, stored under the
    handle, scheduled on the loop of the thread handle (or of the
    calling thread) and started. *)
Theorem C10_schedule_accepts_empty_paths env os thread stream callback σ :
  g__pydict_streams σ !! stream = None →
  cf_array_ok env = true →
  start_ok env = true →
  let fs := length (stream_infos σ) in
  let r := call (pyfsevents_schedule env os thread stream callback []) σ in
  r.1 = Py_None
  ∧ g__pydict_streams r.2 = <[stream:=fs]> (g__pydict_streams σ)
  ∧ calls_since σ r.2 =
      [call_FSEventStreamCreate fs [];
       call_FSEventStreamScheduleWithRunLoop fs
         (default (CFRunLoopGetCurrent os) (g__pydict_loops σ !! thread));
       call_FSEventStreamStart fs].
Proof.
  intros Hs Ha Hst. unfold_api. rewrite Hs, Ha, Hst. simpl.
  split_and!; [done | done |].
  unfold calls_since. simpl. rewrite <- !app_assoc, drop_app_length.
  by destruct (g__pydict_loops σ !! thread).
Qed.

Lemma C10_witness :
  g__pydict_streams (init_fsevents 1) !! 20 = None
  ∧ cf_array_ok (mkSchedule true true) = true
  ∧ start_ok (mkSchedule true true) = true
  ∧ let r := call (pyfsevents_schedule (mkSchedule true true) 3 10 20 30 [])
               (init_fsevents 1) in
    r.1 = Py_None
    ∧ g__pydict_streams r.2 = <[20:=0]> (g__pydict_streams (init_fsevents 1))
    ∧ calls_since (init_fsevents 1) r.2 =
        [call_FSEventStreamCreate 0 [];
         call_FSEventStreamScheduleWithRunLoop 0 3;
         call_FSEventStreamStart 0].
Proof.
  split_and!; [reflexivity | reflexivity | reflexivity |].
  apply (C10_schedule_accepts_empty_paths (mkSchedule true true) 3 10 20 30
           (init_fsevents 1)); reflexivity.
Defined.

(** ** Stopping a loop *)


(** [stop] on a thread handle that is not in the loop dictionary
    returns [None], makes no call to the engine and leaves both
    dictionaries as they are; only error indicators can differ. *)
Lemma pyfsevents_stop_unregistered thread σ :
  g__pydict_loops σ !! thread = None →
  let r := call (pyfsevents_stop thread) σ in
  r.1 = Py_None
  ∧ trace r.2 = trace σ
  ∧ g__pydict_loops r.2 = g__pydict_loops σ
  ∧ g__pydict_streams r.2 = g__pydict_streams σ
  ∧ same_but_curexc σ r.2.
Proof.
  intros Hl. destruct σ as [l s i g t c tr]. simpl in Hl.
  unfold same_but_curexc. unfold_api. simpl. rewrite Hl.
  destruct t as [ts|]; simpl; [destruct (c !! ts); simpl |]; done.
Qed.

(** The error indicator does differ: unwrapping the missing capsule
    sets [TypeError] in the calling thread state when no error was
    pending there, and [stop] returns [None] all the same. *)
Lemma pyfsevents_stop_unregistered_error thread ts σ :
  g__pydict_loops σ !! thread = None →
  tstate_current σ = Some ts →
  curexc σ !! ts = None →
  call (pyfsevents_stop thread) σ
  = (Py_None,
     set_curexc (<[ts:=TypeError "PyCObject_AsVoidPtr called with null pointer"]>) σ).
Proof.
  intros Hl Hts Hc. destruct σ as [l s i g t c tr]. simpl in *. subst t.
  unfold_api. simpl. rewrite Hl. simpl. by rewrite Hc.
Qed.

(** C4 (the code departs from the claim).  [stop] on a thread handle
    that is not in the loop dictionary returns [None], signals no loop
    and leaves both dictionaries as they are, but it is not without
    effect: the null capsule is unwrapped before the test that guards
    the stop request, which leaves a [TypeError] pending in the calling
    thread state, where none was pending before.  A [loop] called next
    by that thread then returns the null pointer although nothing went
    wrong while it ran. *)
Example C4_stop_unregistered_leaves_error :
  g__pydict_loops scheduled.2 !! 10 = None
  ∧ tstate_current scheduled.2 = Some 1
  ∧ curexc scheduled.2 !! 1 = None
  ∧ stop_unregistered.1 = Py_None
  ∧ trace stop_unregistered.2 = trace scheduled.2
  ∧ g__pydict_loops stop_unregistered.2 = g__pydict_loops scheduled.2
  ∧ g__pydict_streams stop_unregistered.2 = g__pydict_streams scheduled.2
  ∧ curexc stop_unregistered.2 !! 1
    = Some (TypeError "PyCObject_AsVoidPtr called with null pointer")
  ∧ (call (pyfsevents_loop 3 (λ σ0, σ0) 10) scheduled.2).1 = Py_None
  ∧ (call (pyfsevents_loop 3 (λ σ0, σ0) 10) stop_unregistered.2).1 = NULL.
Proof. vm_compute. split_and!; done. Qed.

(** [stop] on a registered thread handle asks its loop to stop and
    leaves the entry in place. *)
Lemma pyfsevents_stop_registered thread l σ :
  g__pydict_loops σ !! thread = Some l →
  call (pyfsevents_stop thread) σ = (Py_None, emit (call_CFRunLoopStop l) σ).
Proof. intros Hl. unfold_api. by rewrite Hl. Qed.

(** ** The event delivery bridge: marshalling *)

(** The loop runs to its end only if every element was built. *)
Lemma enumerate_events_Next env event_paths event_masks n :
  ∀ i pl ml σ x σ',
    enumerate_events env event_paths event_masks n i pl ml σ = (Next x, σ') →
    ∀ j, i ≤ j < i + n → path_ok env j = true ∧ mask_ok env j = true.
Proof.
  induction n as [|n IH]; intros i pl ml σ x σ' E j Hj; [lia |].
  simpl in E.
  unfold PyString_FromString, PyInt_FromLong, alloc, PyErr_SetObject, modify,
    mbind, mret, C_bind, C_ret, bind, ret, return_ in E.
  destruct (path_ok env i) eqn:Hp, (mask_ok env i) eqn:Hm; simpl in E;
    try discriminate E.
  destruct (decide (j = i)) as [->|Hne]; [done |].
  eapply IH; [exact E | lia].
Qed.

(** A delivery logs nothing unless every object it asks for is built. *)
Lemma event_stream_handler_calls env stream_info num_events event_paths event_masks σ :
  let σ' := (call (event_stream_handler env stream_info num_events
                     event_paths event_masks) σ).2 in
  trace σ' = trace σ ∨ ((0 ≤ num_events)%Z ∧ marshalled env (Z.to_nat num_events)).
Proof.
  set (σ1 := set_tstate (thread_state stream_info) (set_gil true σ)).
  unfold event_stream_handler, call, PyEval_AcquireLock, PyThreadState_Swap,
    PyList_New, alloc, PyErr_SetObject, modify, mbind, mret, C_bind, C_ret, bind, ret,
    return_.
  fold σ1.
  destruct (num_events <? 0)%Z eqn:Hn;
    [left; simpl; by destruct (thread_state stream_info) |].
  destruct (path_list_ok env) eqn:Hpl, (mask_list_ok env) eqn:Hml; simpl;
    try (left; by destruct (thread_state stream_info)).
  destruct (enumerate_events env event_paths event_masks (Z.to_nat num_events) 0
              (replicate (Z.to_nat num_events) None)
              (replicate (Z.to_nat num_events) None) σ1)
    as [[x|[]] σ4] eqn:E.
  - right. split; [lia |]. split_and!; [done | done |].
    intros i Hi. eapply enumerate_events_Next; [exact E | lia].
  - left. destruct (enumerate_events_frame env event_paths event_masks
                      (Z.to_nat num_events) 0 (replicate (Z.to_nat num_events) None)
                      (replicate (Z.to_nat num_events) None) σ1) as (r & σ4' & E' & F).
    rewrite E in E'. injection E' as <- <-.
    apply same_but_curexc_fields in F as (_ & _ & _ & _ & _ & Et). simpl. by rewrite Et.
Qed.

(** The lists a delivery hands to the callback when all its objects
    are built: the native paths and the native masks, in their order. *)
Lemma event_stream_handler_batch env stream_info event_paths event_masks σ :
  length event_masks = length event_paths →
  Forall (λ m, 0 ≤ m < 2 ^ 32)%Z event_masks →
  marshalled env (length event_paths) →
  let σ' := (call (event_stream_handler env stream_info
                     (Z.of_nat (length event_paths)) event_paths event_masks) σ).2 in
  calls_since σ σ' =
    call_callback (callback_event_handler stream_info) (thread_state stream_info)
      ((λ p, Some (PyString p)) <$> event_paths)
      ((λ m, Some (PyInt m)) <$> event_masks)
    :: after_callback (callback_outcome env) (loop stream_info).
Proof.
  intros Hlen Hrange M.
  destruct (event_stream_handler_marshalled env stream_info (length event_paths)
              event_paths event_masks σ M) as (pl & ml & E & Lp & Lm & Ep & Em).
  assert (pl = (λ p, Some (PyString p)) <$> event_paths) as ->.
  { apply list_eq. intros i. rewrite list_lookup_fmap.
    destruct (event_paths !! i) as [p|] eqn:Hi; simpl.
    - rewrite Ep by (apply lookup_lt_Some in Hi; lia).
      by rewrite (nth_lookup_Some _ _ _ _ Hi).
    - apply lookup_ge_None. apply lookup_ge_None in Hi. lia. }
  assert (ml = (λ m, Some (PyInt m)) <$> event_masks) as ->.
  { apply list_eq. intros i. rewrite list_lookup_fmap.
    destruct (event_masks !! i) as [m|] eqn:Hi; simpl.
    - rewrite Em by (apply lookup_lt_Some in Hi; lia).
      rewrite (nth_lookup_Some _ _ _ _ Hi).
      unfold long_of_FSEventStreamEventFlags.
      rewrite Z.mod_small; [done |].
      by apply (Forall_lookup_1 _ _ _ _ Hrange Hi).
    - apply lookup_ge_None. apply lookup_ge_None in Hi. lia. }
  simpl. rewrite E. unfold calls_since. simpl. by rewrite drop_app_length.
Qed.

(** For every delivery, whatever the runtime does: the callback is
    either not called at all or called with the lists of the native
    paths and masks in their order. *)
Lemma event_stream_handler_calls_with_batch env stream_info event_paths event_masks σ :
  length event_masks = length event_paths →
  Forall (λ m, 0 ≤ m < 2 ^ 32)%Z event_masks →
  let σ' := (call (event_stream_handler env stream_info
                     (Z.of_nat (length event_paths)) event_paths event_masks) σ).2 in
  calls_since σ σ' = []
  ∨ calls_since σ σ' =
      call_callback (callback_event_handler stream_info) (thread_state stream_info)
        ((λ p, Some (PyString p)) <$> event_paths)
        ((λ m, Some (PyInt m)) <$> event_masks)
      :: after_callback (callback_outcome env) (loop stream_info).
Proof.
  intros Hlen Hrange.
  destruct (event_stream_handler_calls env stream_info (Z.of_nat (length event_paths))
              event_paths event_masks σ) as [Et | [_ M]].
  - left. unfold calls_since. simpl in *. rewrite Et. apply drop_all.
  - right. rewrite Nat2Z.id in M. by apply event_stream_handler_batch.
Qed.

(** C7.  In a delivery of [count] events whose lists and elements the
    runtime builds, the handler builds a list of paths and a list of
    masks, each of length [count], whose element at every index is the
    native path, respectively the native mask, at that index, and calls
    the registered callback once with exactly these two lists (followed
    only by the stop request when the call fails). *)
Theorem C7_callback_receives_batch_in_order env stream_info count
    event_paths event_masks σ :
  length event_paths = count →
  length event_masks = count →
  Forall (λ m, 0 ≤ m < 2 ^ 32)%Z event_masks →
  marshalled env count →
  let σ' := (call (event_stream_handler env stream_info (Z.of_nat count)
                     event_paths event_masks) σ).2 in
  ∃ pl ml : pylist,
    length pl = count ∧ length ml = count
    ∧ (∀ i p, event_paths !! i = Some p → pl !! i = Some (Some (PyString p)))
    ∧ (∀ i m, event_masks !! i = Some m → ml !! i = Some (Some (PyInt m)))
    ∧ calls_since σ σ' =
        call_callback (callback_event_handler stream_info)
          (thread_state stream_info) pl ml
        :: after_callback (callback_outcome env) (loop stream_info).
Proof.
  intros <- Hlm Hrange M.
  exists ((λ p, Some (PyString p)) <$> event_paths),
         ((λ m, Some (PyInt m)) <$> event_masks).
  split_and!.
  - by rewrite length_fmap.
  - by rewrite length_fmap.
  - intros i p Hi. by rewrite list_lookup_fmap, Hi.
  - intros i m Hi. by rewrite list_lookup_fmap, Hi.
  - by apply event_stream_handler_batch.
Qed.

Lemma C7_witness :
  let env := mkDelivery true true (λ _, true) (λ _, true) call_ok in
  let event_paths := ["/tmp/watchme/a"; "/tmp/watchme/b"]%string in
  let event_masks := [256; 512]%Z in
  length event_paths = 2
  ∧ length event_masks = 2
  ∧ Forall (λ m, 0 ≤ m < 2 ^ 32)%Z event_masks
  ∧ marshalled env 2
  ∧ let σ' := (call (event_stream_handler env delivery_info (Z.of_nat 2)
                       event_paths event_masks) delivery_state).2 in
    ∃ pl ml : pylist,
      length pl = 2 ∧ length ml = 2
      ∧ (∀ i p, event_paths !! i = Some p → pl !! i = Some (Some (PyString p)))
      ∧ (∀ i m, event_masks !! i = Some m → ml !! i = Some (Some (PyInt m)))
      ∧ calls_since delivery_state σ' =
          call_callback (callback_event_handler delivery_info)
            (thread_state delivery_info) pl ml
          :: after_callback (callback_outcome env) (loop delivery_info).
Proof.
  assert (R : Forall (λ m, 0 ≤ m < 2 ^ 32)%Z [256; 512]%Z)
    by (repeat constructor; lia).
  assert (M : marshalled (mkDelivery true true (λ _, true) (λ _, true) call_ok) 2)
    by (split_and!; [reflexivity | reflexivity | intros; split; reflexivity]).
  split_and!; [reflexivity | reflexivity | exact R | exact M |].
  apply (C7_callback_receives_batch_in_order
           (mkDelivery true true (λ _, true) (λ _, true) call_ok) delivery_info 2
           ["/tmp/watchme/a"; "/tmp/watchme/b"]%string [256; 512]%Z delivery_state);
    [reflexivity | reflexivity | exact R | exact M].
Defined.

(** ** Running a loop *)

(** Up to the blocking call: the entry for [thread] is created only if
    there was none, and the thread gives up its thread state and the
    lock. *)
Lemma pyfsevents_loop_enter_spec os thread σ :
  pyfsevents_loop_enter os thread σ
  = (Next (tstate_current σ),
     mkInterp (if g__pydict_loops σ !! thread is Some _ then g__pydict_loops σ
               else <[thread:=CFRunLoopGetCurrent os]> (g__pydict_loops σ))
       (g__pydict_streams σ) (stream_infos σ) false None (curexc σ) (trace σ)).
Proof.
  unfold_api. unfold_state. by destruct (g__pydict_loops σ !! thread).
Qed.

(** After the blocking call the entry for [thread] is gone; only the
    loop dictionary, the lock, the current thread state and the error
    indicator can change. *)
Lemma pyfsevents_loop_leave_frame _save thread σ :
  let r := call (pyfsevents_loop_leave _save thread) σ in
  g__pydict_loops r.2 !! thread = None
  ∧ g__pydict_streams r.2 = g__pydict_streams σ
  ∧ stream_infos r.2 = stream_infos σ
  ∧ trace r.2 = trace σ.
Proof.
  destruct σ as [l s i g t c tr]. unfold_api. unfold_state.
  destruct (l !! thread) eqn:Hl; simpl.
  - destruct _save as [ts|]; simpl; [destruct (c !! ts); simpl |];
      by rewrite lookup_delete_eq.
  - destruct _save as [ts|]; simpl; rewrite ?lookup_insert_eq; simpl; done.
Qed.

(** When the entry is still there, [loop] removes it and returns the
    null pointer exactly when an error is pending in its own thread
    state. *)
Lemma pyfsevents_loop_leave_registered _save thread l σ :
  g__pydict_loops σ !! thread = Some l →
  call (pyfsevents_loop_leave _save thread) σ
  = (if _save ≫= (λ ts, curexc σ !! ts) is Some _ then NULL else Py_None,
     mkInterp (delete thread (g__pydict_loops σ)) (g__pydict_streams σ)
       (stream_infos σ) true _save (curexc σ) (trace σ)).
Proof.
  intros Hl. destruct σ as [l0 s i g t c tr]. simpl in Hl.
  unfold_api. unfold_state. rewrite Hl. simpl.
  destruct _save as [ts|]; simpl; [destruct (c !! ts); simpl |]; done.
Qed.

(** C8.  [loop] stores the run loop of the calling thread under the
    thread handle when the handle has no entry and keeps the entry it
    finds otherwise, so that the thread blocks with the handle
    registered; and whatever happens while the thread is blocked, when
    [loop] returns the handle is no longer in the loop dictionary. *)
Theorem C8_loop_registers_then_unregisters os thread σ :
  let σ1 := (pyfsevents_loop_enter os thread σ).2 in
  g__pydict_loops σ1
  = (if g__pydict_loops σ !! thread is Some _ then g__pydict_loops σ
     else <[thread:=CFRunLoopGetCurrent os]> (g__pydict_loops σ))
  ∧ g__pydict_loops σ1 !! thread
    = Some (default (CFRunLoopGetCurrent os) (g__pydict_loops σ !! thread))
  ∧ ∀ CFRunLoopRun : interp → interp,
      let r := call (pyfsevents_loop os CFRunLoopRun thread) σ in
      r = call (pyfsevents_loop_leave (tstate_current σ) thread) (CFRunLoopRun σ1)
      ∧ g__pydict_loops r.2 !! thread = None.
Proof.
  simpl. rewrite pyfsevents_loop_enter_spec. simpl. split_and!.
  - done.
  - destruct (g__pydict_loops σ !! thread) eqn:Hl; simpl; [done |].
    by rewrite lookup_insert_eq.
  - intros CFRunLoopRun.
    assert (E : call (pyfsevents_loop os CFRunLoopRun thread) σ
                = call (pyfsevents_loop_leave (tstate_current σ) thread)
                    (CFRunLoopRun (pyfsevents_loop_enter os thread σ).2)).
    { unfold pyfsevents_loop, call, mbind, C_bind, bind, modify.
      by rewrite pyfsevents_loop_enter_spec. }
    rewrite pyfsevents_loop_enter_spec in E. simpl in E. split; [exact E |].
    rewrite E. apply pyfsevents_loop_leave_frame.
Qed.

(** ** The stored thread state *)

(** What a successful [schedule] leaves behind: the handle names the new
    stream, and the information block of that stream holds the callback,
    the resolved loop and the thread state that was current during the
    call. *)
Lemma pyfsevents_schedule_success env os thread stream callback paths σ σ1 :
  call (pyfsevents_schedule env os thread stream callback paths) σ = (Py_None, σ1) →
  let fs := length (stream_infos σ) in
  g__pydict_streams σ1 !! stream = Some fs
  ∧ stream_infos σ1
    = stream_infos σ
      ++ [mkInfo callback fs
            (default (CFRunLoopGetCurrent os) (g__pydict_loops σ !! thread))
            (tstate_current σ)].
Proof.
  unfold_api.
  destruct (g__pydict_streams σ !! stream); simpl; [discriminate |].
  destruct (cf_array_ok env); simpl; [| discriminate].
  destruct (start_ok env); simpl; [| discriminate].
  intros [= <-]. simpl. rewrite lookup_insert_eq.
  by destruct (g__pydict_loops σ !! thread).
Qed.

(** No step removes or rewrites an information block: blocks are only
    ever added, by [schedule]. *)
Lemma step_stream_infos σ σ' :
  step σ σ' → ∃ new, stream_infos σ' = stream_infos σ ++ new.
Proof.
  intros [locked ts exc σ0 | os thread σ0 | _save thread σ0
         | env os thread stream callback paths σ0 | stream σ0 | thread σ0
         | env fs stream_info num_events event_paths event_masks σ0 Hfs].
  - exists []. simpl. by rewrite app_nil_r.
  - exists []. rewrite pyfsevents_loop_enter_spec. simpl. by rewrite app_nil_r.
  - exists []. rewrite app_nil_r. apply pyfsevents_loop_leave_frame.
  - unfold_api.
    destruct (g__pydict_streams σ0 !! stream); simpl;
      [exists []; by rewrite app_nil_r |].
    destruct (cf_array_ok env); simpl; [| exists []; by rewrite app_nil_r].
    destruct (start_ok env); simpl; eauto.
  - exists []. rewrite app_nil_r. destruct σ0 as [l s i g t c tr].
    unfold_api. unfold_state.
    destruct (s !! stream) eqn:Hs; simpl; rewrite ?Hs; simpl; [done |].
    destruct t as [t|]; simpl; [destruct (c !! t); simpl |]; by rewrite ?Hs.
  - exists []. rewrite app_nil_r. destruct σ0 as [l s i g t c tr].
    unfold_api. unfold_state.
    destruct (l !! thread) eqn:Hl; simpl; [done |].
    destruct t as [t|]; simpl; [destruct (c !! t); simpl |]; done.
  - exists []. rewrite app_nil_r.
    apply (event_stream_handler_cases env stream_info num_events
             event_paths event_masks σ0).
Qed.

Lemma rtc_step_stream_infos σ σ' fs stream_info :
  rtc step σ σ' →
  stream_infos σ !! fs = Some stream_info →
  stream_infos σ' !! fs = Some stream_info.
Proof.
  induction 1 as [|σ σm σ' Hstep _ IH]; [done |].
  intros Hfs. apply IH.
  destruct (step_stream_infos _ _ Hstep) as [new ->].
  by apply lookup_app_l_Some.
Qed.

(** C9.  After a successful [schedule] the information block of the new
    stream holds the thread state that was current during the call.
    Through any later sequence of module calls, deliveries and managed
    code the block stays the same, and a delivery for the stream, from
    whatever state it starts, calls the callback under that thread state
    and under no other. *)
Theorem C9_thread_state_fixed_at_schedule env os thread stream callback paths
    σ σ1 σ2 :
  call (pyfsevents_schedule env os thread stream callback paths) σ = (Py_None, σ1) →
  rtc step σ1 σ2 →
  ∃ fs stream_info,
    g__pydict_streams σ1 !! stream = Some fs
    ∧ stream_infos σ1 !! fs = Some stream_info
    ∧ thread_state stream_info = tstate_current σ
    ∧ stream_infos σ2 !! fs = Some stream_info
    ∧ ∀ denv num_events event_paths event_masks,
        let σ3 := (call (event_stream_handler denv stream_info num_events
                           event_paths event_masks) σ2).2 in
        (∀ cb ts a b,
           call_callback cb ts a b ∈ calls_since σ2 σ3 → ts = tstate_current σ)
        ∧ (marshalled denv (Z.to_nat num_events) → (0 ≤ num_events)%Z →
           ∃ a b rest,
             calls_since σ2 σ3 = call_callback callback (tstate_current σ) a b :: rest).
Proof.
  intros Hsched Hrtc.
  destruct (pyfsevents_schedule_success _ _ _ _ _ _ _ _ Hsched) as [Hreg Hinfos].
  set (fs := length (stream_infos σ)) in *.
  set (stream_info := mkInfo callback fs
         (default (CFRunLoopGetCurrent os) (g__pydict_loops σ !! thread))
         (tstate_current σ)) in *.
  assert (Hfs : stream_infos σ1 !! fs = Some stream_info).
  { rewrite Hinfos. by rewrite lookup_app_r, Nat.sub_diag by done. }
  exists fs, stream_info. split_and!; [done | done | done | |].
  { by eapply rtc_step_stream_infos. }
  intros denv num_events event_paths event_masks. simpl. split.
  - intros cb ts a b Hin.
    destruct (event_stream_handler_cases denv stream_info num_events
                event_paths event_masks σ2)
      as (_ & _ & _ & [(Et & _) | (pl & ml & Et & _)]);
      unfold calls_since in Hin; simpl in Et; rewrite Et in Hin.
    + rewrite drop_all in Hin. by apply elem_of_nil in Hin.
    + rewrite drop_app_length in Hin.
      apply elem_of_cons in Hin as [[= _ -> _ _] | Hin]; [done |].
      unfold after_callback in Hin.
      destruct (callback_outcome denv); [by apply elem_of_nil in Hin |].
      apply list_elem_of_singleton in Hin. discriminate.
  - intros M Hn.
    destruct (event_stream_handler_marshalled denv stream_info (Z.to_nat num_events)
                event_paths event_masks σ2 M) as (pl & ml & E & _).
    rewrite Z2Nat.id in E by done.
    exists pl, ml, (after_callback (callback_outcome denv) (loop stream_info)).
    rewrite E. unfold calls_since. simpl. by rewrite drop_app_length.
Qed.

Lemma C9_witness :
  call (pyfsevents_schedule (mkSchedule true true) 3 10 20 30
          ["/tmp/watchme"%string]) (init_fsevents 1) = (Py_None, scheduled.2)
  ∧ rtc step scheduled.2 delivery_state
  ∧ ∃ fs stream_info,
      g__pydict_streams scheduled.2 !! 20 = Some fs
      ∧ stream_infos scheduled.2 !! fs = Some stream_info
      ∧ thread_state stream_info = tstate_current (init_fsevents 1)
      ∧ stream_infos delivery_state !! fs = Some stream_info
      ∧ ∀ denv num_events event_paths event_masks,
          let σ3 := (call (event_stream_handler denv stream_info num_events
                             event_paths event_masks) delivery_state).2 in
          (∀ cb ts a b,
             call_callback cb ts a b ∈ calls_since delivery_state σ3 →
             ts = tstate_current (init_fsevents 1))
          ∧ (marshalled denv (Z.to_nat num_events) → (0 ≤ num_events)%Z →
             ∃ a b rest,
               calls_since delivery_state σ3
               = call_callback 30 (tstate_current (init_fsevents 1)) a b :: rest).
Proof.
  assert (H1 : call (pyfsevents_schedule (mkSchedule true true) 3 10 20 30
                       ["/tmp/watchme"%string]) (init_fsevents 1)
               = (Py_None, scheduled.2)) by reflexivity.
  assert (H2 : rtc step scheduled.2 delivery_state).
  { apply rtc_once.
    exact (step_interpreter false None (curexc scheduled.2) scheduled.2). }
  split_and!; [exact H1 | exact H2 |].
  exact (C9_thread_state_fixed_at_schedule (mkSchedule true true) 3 10 20 30
           ["/tmp/watchme"%string] (init_fsevents 1) scheduled.2 delivery_state H1 H2).
Defined.

(** ** Failure of the callback *)

Lemma pyfsevents_loop_unfold os CFRunLoopRun thread σ :
  call (pyfsevents_loop os CFRunLoopRun thread) σ
  = call (pyfsevents_loop_leave (tstate_current σ) thread)
      (CFRunLoopRun (pyfsevents_loop_enter os thread σ).2).
Proof.
  unfold pyfsevents_loop, call, mbind, C_bind, bind, modify.
  by rewrite pyfsevents_loop_enter_spec.
Qed.

(** C5 (as amended).  A thread with thread state [ts] is blocked in
    [loop]; the engine delivers a batch for a stream that is scheduled
    on the run loop of that thread and whose stored thread state is
    [ts], all objects are built, and the call of the callback fails.
    Then the handler calls the callback and asks that run loop to stop;
    the error left pending in [ts] is the one the callback raised, else
    the one already pending, else the generic [ValueError]; and [loop]
    returns the null pointer with that error pending.  [before] is
    whatever happened while the thread was blocked, up to the
    delivery. *)
Theorem C5_failed_callback_surfaces_in_loop os thread ts (before : interp → interp)
    env stream_info count event_paths event_masks raised σ :
  let σd := before (pyfsevents_loop_enter os thread σ).2 in
  let CFRunLoopRun := λ σ0,
    (call (event_stream_handler env stream_info (Z.of_nat count)
             event_paths event_masks) (before σ0)).2 in
  let r := call (pyfsevents_loop os CFRunLoopRun thread) σ in
  marshalled env count →
  callback_outcome env = call_failed raised →
  tstate_current σ = Some ts →
  thread_state stream_info = Some ts →
  loop stream_info = CFRunLoopGetCurrent os →
  is_Some (g__pydict_loops σd !! thread) →
  (∃ pl ml : pylist,
     calls_since σd r.2
     = [call_callback (callback_event_handler stream_info) (Some ts) pl ml;
        call_CFRunLoopStop (CFRunLoopGetCurrent os)])
  ∧ r.1 = NULL
  ∧ curexc r.2 !! ts = Some (pending_after_failure raised (curexc σd !! ts))
  ∧ (raised = None → curexc σd !! ts = None →
     curexc r.2 !! ts = Some (ValueError CALLBACK_ERROR_MESSAGE)).
Proof.
  intros σd CFRunLoopRun r M Hfail Hts Hinfo Hloop [l Hl].
  destruct (event_stream_handler_marshalled env stream_info count
              event_paths event_masks σd M) as (pl & ml & E & _).
  rewrite Hfail, Hinfo, Hloop in E. simpl in E.
  assert (Er : r = (NULL,
            mkInterp (delete thread (g__pydict_loops σd)) (g__pydict_streams σd)
              (stream_infos σd) true (Some ts)
              (<[ts:=pending_after_failure raised (curexc σd !! ts)]> (curexc σd))
              (trace σd ++ [call_callback (callback_event_handler stream_info)
                              (Some ts) pl ml;
                            call_CFRunLoopStop (CFRunLoopGetCurrent os)]))).
  { subst r. rewrite pyfsevents_loop_unfold. subst CFRunLoopRun. simpl.
    fold σd. rewrite E. simpl.
    rewrite (pyfsevents_loop_leave_registered _ _ l) by exact Hl.
    simpl. rewrite Hts. simpl. by rewrite lookup_insert_eq. }
  rewrite Er. simpl. split_and!.
  - exists pl, ml. unfold calls_since. simpl. by rewrite drop_app_length.
  - done.
  - by rewrite lookup_insert_eq.
  - intros -> ->. by rewrite lookup_insert_eq.
Qed.

Lemma C5_witness :
  let env := mkDelivery true true (λ _, true) (λ _, true) (call_failed None) in
  let σd := (pyfsevents_loop_enter 3 10 scheduled.2).2 in
  let r := call (pyfsevents_loop 3
                   (λ σ0, (call (event_stream_handler env delivery_info (Z.of_nat 1)
                                   ["/tmp/watchme/a"%string] [256%Z]) σ0).2)
                   10) scheduled.2 in
  marshalled env 1
  ∧ callback_outcome env = call_failed None
  ∧ tstate_current scheduled.2 = Some 1
  ∧ thread_state delivery_info = Some 1
  ∧ loop delivery_info = CFRunLoopGetCurrent 3
  ∧ is_Some (g__pydict_loops σd !! 10)
  ∧ (∃ pl ml : pylist,
       calls_since σd r.2
       = [call_callback (callback_event_handler delivery_info) (Some 1) pl ml;
          call_CFRunLoopStop (CFRunLoopGetCurrent 3)])
  ∧ r.1 = NULL
  ∧ curexc r.2 !! 1 = Some (pending_after_failure None (curexc σd !! 1))
  ∧ (@None exception = None → curexc σd !! 1 = None →
     curexc r.2 !! 1 = Some (ValueError CALLBACK_ERROR_MESSAGE)).
Proof.
  assert (M : marshalled
                (mkDelivery true true (λ _, true) (λ _, true) (call_failed None)) 1)
    by (split_and!; [reflexivity | reflexivity | intros; split; reflexivity]).
  assert (L : is_Some (g__pydict_loops (pyfsevents_loop_enter 3 10 scheduled.2).2 !! 10))
    by (exists 3; reflexivity).
  cbv zeta.
  split; [exact M |]. split; [reflexivity |]. split; [reflexivity |].
  split; [reflexivity |]. split; [reflexivity |]. split; [exact L |].
  exact (C5_failed_callback_surfaces_in_loop 3 10 1 (λ σ0, σ0)
           (mkDelivery true true (λ _, true) (λ _, true) (call_failed None))
           delivery_info 1 ["/tmp/watchme/a"%string] [256%Z] None scheduled.2
           M eq_refl eq_refl eq_refl eq_refl L).
Defined.

(** C5, as stated, fails when the stream was scheduled from another
    thread.  Thread 2 is blocked in [loop] under handle 10; thread 1
    schedules stream 20 on handle 10, so the stream runs on the loop of
    thread 2 and stores thread state 1.  The callback raises during a
    delivery: the loop of thread 2 is asked to stop, the exception is
    left pending in thread state 1, thread state 2 has no error, and
    [loop] returns [None]. *)
Lemma C5_counterexample :
  stream_infos cross_thread_loop.2 !! 0 = Some (mkInfo 30 0 2 (Some 1))
  ∧ calls_since (init_fsevents 2) cross_thread_loop.2
    = [call_FSEventStreamCreate 0 ["/tmp/watchme"%string];
       call_FSEventStreamScheduleWithRunLoop 0 2;
       call_FSEventStreamStart 0;
       call_callback 30 (Some 1) [Some (PyString "/tmp/watchme/a")]
         [Some (PyInt 256)];
       call_CFRunLoopStop 2]
  ∧ curexc cross_thread_loop.2 !! 1 = Some (Raised 9)
  ∧ curexc cross_thread_loop.2 !! 2 = None
  ∧ cross_thread_loop.1 = Py_None
  ∧ cross_thread_loop.1 ≠ NULL.
Proof. vm_compute. split_and!; done. Qed.

(** * Further properties of the module *)

(** ** Scheduling *)

(** The complete effect of [schedule] on a handle that is not registered,
    once the paths array exists. *)
Lemma pyfsevents_schedule_absent env os thread stream callback paths σ :
  g__pydict_streams σ !! stream = None →
  cf_array_ok env = true →
  let fs := length (stream_infos σ) in
  let l := default (CFRunLoopGetCurrent os) (g__pydict_loops σ !! thread) in
  call (pyfsevents_schedule env os thread stream callback paths) σ
  = (if start_ok env then Py_None else NULL,
     mkInterp (g__pydict_loops σ) (<[stream:=fs]> (g__pydict_streams σ))
       (stream_infos σ ++ [mkInfo callback fs l (tstate_current σ)])
       (gil_locked σ) (tstate_current σ) (curexc σ)
       (trace σ ++ [call_FSEventStreamCreate fs (CFStringCreateWithCString <$> paths);
                    call_FSEventStreamScheduleWithRunLoop fs l;
                    call_FSEventStreamStart fs]
                ++ (if start_ok env then []
                    else [call_FSEventStreamInvalidate (Some fs);
                          call_FSEventStreamRelease (Some fs)]))).
Proof.
  intros Hs Ha. unfold_api. rewrite Hs, Ha. simpl.
  rewrite schedule_paths_all.
  destruct (start_ok env), (g__pydict_loops σ !! thread); unfold_state;
    by rewrite <- ?app_assoc.
Qed.


(** X1.  [schedule] hands the engine one path for each path it was
    given, in the same order, whatever their number: for a handle that
    is not registered, the first call it makes is [FSEventStreamCreate]
    with the list of the given paths, each read as the C string in the
    buffer of its string object.  A path without a NUL byte is passed
    on as it is; a path with one is passed on up to that byte. *)
Theorem X1_schedule_watches_given_paths env os thread stream callback paths σ :
  g__pydict_streams σ !! stream = None →
  cf_array_ok env = true →
  let r := call (pyfsevents_schedule env os thread stream callback paths) σ in
  ∃ watched rest,
    calls_since σ r.2
    = call_FSEventStreamCreate (length (stream_infos σ)) watched :: rest
    ∧ length watched = length paths
    ∧ (∀ i p, paths !! i = Some p → watched !! i = Some (c_string p))
    ∧ (∀ i p, paths !! i = Some p → nul_free p = true → watched !! i = Some p).
Proof.
  intros Hs Ha. simpl. rewrite pyfsevents_schedule_absent by done.
  unfold calls_since. simpl. rewrite drop_app_length. simpl.
  eexists _, _. split; [done |]. split_and!.
  - by rewrite length_fmap.
  - intros i p Hi. by rewrite list_lookup_fmap, Hi.
  - intros i p Hi Hp. rewrite list_lookup_fmap, Hi. simpl.
    unfold CFStringCreateWithCString. by rewrite c_string_nul_free.
Qed.

Lemma X1_witness :
  let paths := ["/tmp/a"; String "/" (String "x" (String Ascii.zero "y")); "/tmp/c"]%string in
  g__pydict_streams (init_fsevents 1) !! 20 = None
  ∧ cf_array_ok (mkSchedule true true) = true
  ∧ let r := call (pyfsevents_schedule (mkSchedule true true) 3 10 20 30 paths)
               (init_fsevents 1) in
    ∃ watched rest,
      calls_since (init_fsevents 1) r.2
      = call_FSEventStreamCreate (length (stream_infos (init_fsevents 1))) watched
        :: rest
      ∧ length watched = length paths
      ∧ (∀ i p, paths !! i = Some p → watched !! i = Some (c_string p))
      ∧ (∀ i p, paths !! i = Some p → nul_free p = true → watched !! i = Some p).
Proof.
  cbv zeta. split; [reflexivity |]. split; [reflexivity |].
  exact (X1_schedule_watches_given_paths (mkSchedule true true) 3 10 20 30
           ["/tmp/a"; String "/" (String "x" (String Ascii.zero "y")); "/tmp/c"]%string
           (init_fsevents 1) eq_refl eq_refl).
Defined.

(** A successful [schedule] found the handle unregistered and the engine
    willing. *)
Lemma pyfsevents_schedule_Py_None env os thread stream callback paths σ σ1 :
  call (pyfsevents_schedule env os thread stream callback paths) σ = (Py_None, σ1) →
  g__pydict_streams σ !! stream = None
  ∧ cf_array_ok env = true ∧ start_ok env = true.
Proof.
  unfold_api.
  destruct (g__pydict_streams σ !! stream); simpl; [discriminate |].
  destruct (cf_array_ok env); simpl; [| discriminate].
  destruct (start_ok env); simpl; [done | discriminate].
Qed.

(** X2.  [schedule] returns [None] exactly when the stream handle is not
    registered, the paths array is created and the stream starts; the
    thread handle, the callback and the paths play no part. *)
Theorem X2_schedule_succeeds_iff env os thread stream callback paths σ :
  (call (pyfsevents_schedule env os thread stream callback paths) σ).1 = Py_None
  ↔ g__pydict_streams σ !! stream = None
    ∧ cf_array_ok env = true ∧ start_ok env = true.
Proof.
  destruct (g__pydict_streams σ !! stream) as [fs|] eqn:Hs.
  - unfold_api. rewrite Hs. simpl. split; [discriminate | by intros [? _]].
  - rewrite pyfsevents_schedule_result by done.
    destruct (cf_array_ok env), (start_ok env); simpl; split;
      try done; by intros (_ & ? & ?).
Qed.

(** X3.  A stream is scheduled on the loop registered for the thread
    handle, and on the run loop of the calling thread when the handle
    has none.  The information block of the stream records that same
    loop together with the callback, so that a delivery whose callback
    fails asks exactly that loop to stop. *)
Theorem X3_schedule_resolves_loop env os thread stream callback paths σ σ1 :
  call (pyfsevents_schedule env os thread stream callback paths) σ = (Py_None, σ1) →
  let fs := length (stream_infos σ) in
  let l := default (CFRunLoopGetCurrent os) (g__pydict_loops σ !! thread) in
  calls_since σ σ1 = [call_FSEventStreamCreate fs (CFStringCreateWithCString <$> paths);
                      call_FSEventStreamScheduleWithRunLoop fs l;
                      call_FSEventStreamStart fs]
  ∧ stream_infos σ1 !! fs = Some (mkInfo callback fs l (tstate_current σ))
  ∧ ∀ denv count event_paths event_masks raised,
      marshalled denv count →
      callback_outcome denv = call_failed raised →
      ∃ pl ml,
        calls_since σ1
          (call (event_stream_handler denv (mkInfo callback fs l (tstate_current σ))
                   (Z.of_nat count) event_paths event_masks) σ1).2
        = [call_callback callback (tstate_current σ) pl ml; call_CFRunLoopStop l].
Proof.
  intros Hsched.
  destruct (pyfsevents_schedule_Py_None _ _ _ _ _ _ _ _ Hsched) as (Hs & Ha & Hst).
  rewrite pyfsevents_schedule_absent in Hsched by done.
  rewrite Hst in Hsched. injection Hsched as <-. simpl. split_and!.
  - unfold calls_since. simpl. by rewrite ?app_nil_r, drop_app_length.
  - by rewrite lookup_app_r, Nat.sub_diag by done.
  - intros denv count event_paths event_masks raised M Hfail.
    match goal with |- context [call ?h ?s] =>
      destruct (event_stream_handler_marshalled denv
                  (mkInfo callback (length (stream_infos σ))
                     (default (CFRunLoopGetCurrent os) (g__pydict_loops σ !! thread))
                     (tstate_current σ)) count event_paths event_masks s M)
        as (pl & ml & E & _)
    end.
    exists pl, ml. rewrite E, Hfail. unfold calls_since. simpl.
    by rewrite drop_app_length.
Qed.

Lemma X3_witness :
  call (pyfsevents_schedule (mkSchedule true true) 3 10 20 30
          ["/tmp/watchme"%string]) (init_fsevents 1) = (Py_None, scheduled.2)
  ∧ let fs := length (stream_infos (init_fsevents 1)) in
    let l := default (CFRunLoopGetCurrent 3) (g__pydict_loops (init_fsevents 1) !! 10) in
    calls_since (init_fsevents 1) scheduled.2
    = [call_FSEventStreamCreate fs ["/tmp/watchme"%string];
       call_FSEventStreamScheduleWithRunLoop fs l;
       call_FSEventStreamStart fs]
    ∧ stream_infos scheduled.2 !! fs
      = Some (mkInfo 30 fs l (tstate_current (init_fsevents 1)))
    ∧ ∀ denv count event_paths event_masks raised,
        marshalled denv count →
        callback_outcome denv = call_failed raised →
        ∃ pl ml,
          calls_since scheduled.2
            (call (event_stream_handler denv
                     (mkInfo 30 fs l (tstate_current (init_fsevents 1)))
                     (Z.of_nat count) event_paths event_masks) scheduled.2).2
          = [call_callback 30 (tstate_current (init_fsevents 1)) pl ml;
             call_CFRunLoopStop l].
Proof.
  split; [reflexivity |].
  exact (X3_schedule_resolves_loop (mkSchedule true true) 3 10 20 30
           ["/tmp/watchme"%string] (init_fsevents 1) scheduled.2 eq_refl).
Defined.

(** The complete effect of [unschedule] on a registered handle. *)
Lemma pyfsevents_unschedule_registered stream fs σ :
  g__pydict_streams σ !! stream = Some fs →
  call (pyfsevents_unschedule stream) σ
  = (Py_None,
     mkInterp (g__pydict_loops σ) (delete stream (g__pydict_streams σ))
       (stream_infos σ) (gil_locked σ) (tstate_current σ) (curexc σ)
       (trace σ ++ [call_FSEventStreamStop (Some fs);
                    call_FSEventStreamInvalidate (Some fs);
                    call_FSEventStreamRelease (Some fs)])).
Proof.
  intros Hs. unfold_api. rewrite Hs. simpl. rewrite Hs. unfold_state.
  by rewrite <- !app_assoc.
Qed.

(** X4.  Scheduling a stream and then unscheduling it brings both
    dictionaries back to what they were: the handle is registered in
    between and absent again afterwards, and the stream that is stopped,
    invalidated and released is the one that was created and started. *)
Theorem X4_schedule_unschedule_round_trip env os thread stream callback paths σ :
  g__pydict_streams σ !! stream = None →
  cf_array_ok env = true →
  start_ok env = true →
  let fs := length (stream_infos σ) in
  let l := default (CFRunLoopGetCurrent os) (g__pydict_loops σ !! thread) in
  let r1 := call (pyfsevents_schedule env os thread stream callback paths) σ in
  let r2 := call (pyfsevents_unschedule stream) r1.2 in
  r1.1 = Py_None ∧ g__pydict_streams r1.2 !! stream = Some fs
  ∧ r2.1 = Py_None
  ∧ g__pydict_streams r2.2 = g__pydict_streams σ
  ∧ g__pydict_loops r2.2 = g__pydict_loops σ
  ∧ calls_since σ r2.2
    = [call_FSEventStreamCreate fs (CFStringCreateWithCString <$> paths);
       call_FSEventStreamScheduleWithRunLoop fs l;
       call_FSEventStreamStart fs;
       call_FSEventStreamStop (Some fs);
       call_FSEventStreamInvalidate (Some fs);
       call_FSEventStreamRelease (Some fs)].
Proof.
  intros Hs Ha Hst. simpl.
  rewrite pyfsevents_schedule_absent by done. rewrite Hst. simpl.
  rewrite (pyfsevents_unschedule_registered _ (length (stream_infos σ)))
    by (simpl; apply lookup_insert_eq).
  simpl. split_and!; try done.
  - apply lookup_insert_eq.
  - by apply delete_insert_id.
  - unfold calls_since. simpl. by rewrite ?app_nil_r, <- ?app_assoc, drop_app_length.
Qed.

Lemma X4_witness :
  g__pydict_streams (init_fsevents 1) !! 20 = None
  ∧ cf_array_ok (mkSchedule true true) = true
  ∧ start_ok (mkSchedule true true) = true
  ∧ let σ := init_fsevents 1 in
    let fs := length (stream_infos σ) in
    let l := default (CFRunLoopGetCurrent 3) (g__pydict_loops σ !! 10) in
    let r1 := call (pyfsevents_schedule (mkSchedule true true) 3 10 20 30
                      ["/tmp/watchme"%string]) σ in
    let r2 := call (pyfsevents_unschedule 20) r1.2 in
    r1.1 = Py_None ∧ g__pydict_streams r1.2 !! 20 = Some fs
    ∧ r2.1 = Py_None
    ∧ g__pydict_streams r2.2 = g__pydict_streams σ
    ∧ g__pydict_loops r2.2 = g__pydict_loops σ
    ∧ calls_since σ r2.2
      = [call_FSEventStreamCreate fs ["/tmp/watchme"%string];
         call_FSEventStreamScheduleWithRunLoop fs l;
         call_FSEventStreamStart fs;
         call_FSEventStreamStop (Some fs);
         call_FSEventStreamInvalidate (Some fs);
         call_FSEventStreamRelease (Some fs)].
Proof.
  split; [reflexivity |]. split; [reflexivity |]. split; [reflexivity |].
  exact (X4_schedule_unschedule_round_trip (mkSchedule true true) 3 10 20 30
           ["/tmp/watchme"%string] (init_fsevents 1) eq_refl eq_refl eq_refl).
Defined.


(** X5.  A stream handle can be used again once it has been unscheduled:
    after [schedule] and [unschedule] the handle is absent, and a second
    [schedule] under it, with any thread handle, callback and paths,
    succeeds: it creates, schedules and starts a stream and registers
    that stream under the handle. *)
Theorem X5_handle_reusable_after_unschedule env os thread stream callback paths
    env' os' thread' callback' paths' σ :
  g__pydict_streams σ !! stream = None →
  cf_array_ok env = true → start_ok env = true →
  cf_array_ok env' = true → start_ok env' = true →
  let r1 := call (pyfsevents_schedule env os thread stream callback paths) σ in
  let r2 := call (pyfsevents_unschedule stream) r1.2 in
  let r3 := call (pyfsevents_schedule env' os' thread' stream callback' paths') r2.2 in
  is_Some (g__pydict_streams r1.2 !! stream)
  ∧ g__pydict_streams r2.2 !! stream = None
  ∧ r3.1 = Py_None
  ∧ ∃ fs l,
      g__pydict_streams r3.2 !! stream = Some fs
      ∧ calls_since r2.2 r3.2
        = [call_FSEventStreamCreate fs (CFStringCreateWithCString <$> paths');
           call_FSEventStreamScheduleWithRunLoop fs l;
           call_FSEventStreamStart fs].
Proof.
  intros Hs Ha Hst Ha' Hst'. simpl.
  rewrite (pyfsevents_schedule_absent env os thread stream callback paths σ) by done.
  rewrite Hst. simpl.
  rewrite (pyfsevents_unschedule_registered _ (length (stream_infos σ)))
    by (simpl; apply lookup_insert_eq).
  simpl.
  rewrite pyfsevents_schedule_absent; [| simpl; apply lookup_delete_eq | exact Ha'].
  rewrite Hst'. simpl. split_and!.
  - rewrite lookup_insert_eq. eauto.
  - apply lookup_delete_eq.
  - done.
  - eexists _, _. split; [apply lookup_insert_eq |].
    unfold calls_since. simpl. by rewrite ?app_nil_r, drop_app_length.
Qed.

Lemma X5_witness :
  g__pydict_streams (init_fsevents 1) !! 20 = None
  ∧ cf_array_ok (mkSchedule true true) = true
  ∧ start_ok (mkSchedule true true) = true
  ∧ let σ := init_fsevents 1 in
    let r1 := call (pyfsevents_schedule (mkSchedule true true) 3 10 20 30
                      ["/tmp/watchme"%string]) σ in
    let r2 := call (pyfsevents_unschedule 20) r1.2 in
    let r3 := call (pyfsevents_schedule (mkSchedule true true) 4 11 20 31
                      ["/tmp/other"%string]) r2.2 in
    is_Some (g__pydict_streams r1.2 !! 20)
    ∧ g__pydict_streams r2.2 !! 20 = None
    ∧ r3.1 = Py_None
    ∧ ∃ fs l,
        g__pydict_streams r3.2 !! 20 = Some fs
        ∧ calls_since r2.2 r3.2
          = [call_FSEventStreamCreate fs
               (CFStringCreateWithCString <$> ["/tmp/other"%string]);
             call_FSEventStreamScheduleWithRunLoop fs l;
             call_FSEventStreamStart fs].
Proof.
  split; [reflexivity |]. split; [reflexivity |]. split; [reflexivity |].
  exact (X5_handle_reusable_after_unschedule (mkSchedule true true) 3 10 20 30
           ["/tmp/watchme"%string] (mkSchedule true true) 4 11 31
           ["/tmp/other"%string] (init_fsevents 1)
           eq_refl eq_refl eq_refl eq_refl eq_refl).
Defined.

(** X6.  [schedule] and [unschedule] reach no entry of the stream
    dictionary but the one of their own handle, and neither touches the
    loop dictionary, in any state and whatever the engine answers. *)
Theorem X6_schedule_unschedule_touch_one_handle env os thread stream callback paths
    other σ :
  other ≠ stream →
  let r1 := call (pyfsevents_schedule env os thread stream callback paths) σ in
  let r2 := call (pyfsevents_unschedule stream) σ in
  g__pydict_streams r1.2 !! other = g__pydict_streams σ !! other
  ∧ g__pydict_loops r1.2 = g__pydict_loops σ
  ∧ g__pydict_streams r2.2 !! other = g__pydict_streams σ !! other
  ∧ g__pydict_loops r2.2 = g__pydict_loops σ.
Proof.
  intros Hne. simpl. split_and!.
  - unfold_api. destruct (g__pydict_streams σ !! stream); simpl; [done |].
    destruct (cf_array_ok env); simpl; [| done].
    destruct (start_ok env); simpl; by rewrite lookup_insert_ne.
  - unfold_api. destruct (g__pydict_streams σ !! stream); simpl; [done |].
    destruct (cf_array_ok env); simpl; [| done].
    by destruct (start_ok env).
  - destruct (g__pydict_streams σ !! stream) as [fs|] eqn:Hs.
    + rewrite (pyfsevents_unschedule_registered _ fs) by done. simpl.
      by rewrite lookup_delete_ne.
    + destruct (pyfsevents_unschedule_absent stream σ Hs) as (_ & -> & _). done.
  - destruct σ as [l s i g t c tr]. unfold_api. unfold_state.
    destruct (s !! stream) eqn:Hs; simpl; rewrite ?Hs; simpl; [done |].
    destruct t as [t|]; simpl; [destruct (c !! t); simpl |]; by rewrite ?Hs.
Qed.

Lemma X6_witness :
  21 ≠ 20
  ∧ let r1 := call (pyfsevents_schedule (mkSchedule true true) 4 11 20 31
                      ["/tmp/other"%string]) scheduled.2 in
    let r2 := call (pyfsevents_unschedule 20) scheduled.2 in
    g__pydict_streams r1.2 !! 21 = g__pydict_streams scheduled.2 !! 21
    ∧ g__pydict_loops r1.2 = g__pydict_loops scheduled.2
    ∧ g__pydict_streams r2.2 !! 21 = g__pydict_streams scheduled.2 !! 21
    ∧ g__pydict_loops r2.2 = g__pydict_loops scheduled.2.
Proof.
  assert (H : 21 ≠ 20) by lia.
  split; [exact H |].
  exact (X6_schedule_unschedule_touch_one_handle (mkSchedule true true) 4 11 20 31
           ["/tmp/other"%string] 21 scheduled.2 H).
Defined.

(** ** Deliveries *)




(** X9.  An empty batch is delivered like any other: when the two lists
    are built, a delivery of zero events calls the callback once, with
    two empty lists. *)
Theorem X9_empty_batch_calls_callback env stream_info σ :
  path_list_ok env = true →
  mask_list_ok env = true →
  let σ' := (call (event_stream_handler env stream_info 0 [] []) σ).2 in
  calls_since σ σ'
  = call_callback (callback_event_handler stream_info) (thread_state stream_info) [] []
    :: after_callback (callback_outcome env) (loop stream_info).
Proof.
  intros Hp Hm.
  assert (M : marshalled env (length (@nil string)))
    by (split_and!; [done | done | simpl; intros; lia]).
  exact (event_stream_handler_batch env stream_info [] [] σ eq_refl (Forall_nil_2 _) M).
Qed.

Lemma X9_witness :
  let env := mkDelivery true true (λ _, false) (λ _, false) call_ok in
  path_list_ok env = true
  ∧ mask_list_ok env = true
  ∧ let σ' := (call (event_stream_handler env delivery_info 0 [] []) delivery_state).2 in
    calls_since delivery_state σ'
    = call_callback (callback_event_handler delivery_info)
        (thread_state delivery_info) [] []
      :: after_callback (callback_outcome env) (loop delivery_info).
Proof.
  cbv zeta. split; [reflexivity |]. split; [reflexivity |].
  exact (X9_empty_batch_calls_callback
           (mkDelivery true true (λ _, false) (λ _, false) call_ok)
           delivery_info delivery_state eq_refl eq_refl).
Defined.

(** ** Stopping and running loops *)

(** X10.  [stop] looks the loop up without unregistering it: on a
    registered handle it asks exactly that loop to stop, sets no error
    and leaves the entry in place, so that a second [stop] asks the same
    loop again. *)
Theorem X10_stop_signals_and_keeps_entry thread l σ :
  g__pydict_loops σ !! thread = Some l →
  let r1 := call (pyfsevents_stop thread) σ in
  let r2 := call (pyfsevents_stop thread) r1.2 in
  r1.1 = Py_None ∧ r2.1 = Py_None
  ∧ calls_since σ r1.2 = [call_CFRunLoopStop l]
  ∧ calls_since σ r2.2 = [call_CFRunLoopStop l; call_CFRunLoopStop l]
  ∧ g__pydict_loops r2.2 = g__pydict_loops σ
  ∧ g__pydict_streams r2.2 = g__pydict_streams σ
  ∧ curexc r2.2 = curexc σ.
Proof.
  intros Hl. simpl.
  rewrite (pyfsevents_stop_registered thread l σ Hl). simpl.
  rewrite (pyfsevents_stop_registered thread l (emit (call_CFRunLoopStop l) σ))
    by exact Hl.
  unfold calls_since. simpl.
  split_and!; try done; by rewrite <- ?app_assoc, drop_app_length.
Qed.

Lemma X10_witness :
  let σ1 := (pyfsevents_loop_enter 3 10 scheduled.2).2 in
  g__pydict_loops σ1 !! 10 = Some 3
  ∧ let r1 := call (pyfsevents_stop 10) σ1 in
    let r2 := call (pyfsevents_stop 10) r1.2 in
    r1.1 = Py_None ∧ r2.1 = Py_None
    ∧ calls_since σ1 r1.2 = [call_CFRunLoopStop 3]
    ∧ calls_since σ1 r2.2 = [call_CFRunLoopStop 3; call_CFRunLoopStop 3]
    ∧ g__pydict_loops r2.2 = g__pydict_loops σ1
    ∧ g__pydict_streams r2.2 = g__pydict_streams σ1
    ∧ curexc r2.2 = curexc σ1.
Proof.
  cbv zeta. split; [reflexivity |].
  exact (X10_stop_signals_and_keeps_entry 10 3
           (pyfsevents_loop_enter 3 10 scheduled.2).2 eq_refl).
Defined.

(** What the exit part of [loop] does to the loop dictionary, the lock
    and the current thread state, in every state. *)
Lemma pyfsevents_loop_leave_effect _save thread σ :
  let r := call (pyfsevents_loop_leave _save thread) σ in
  g__pydict_loops r.2 = delete thread (g__pydict_loops σ)
  ∧ gil_locked r.2 = true
  ∧ tstate_current r.2 = _save.
Proof.
  destruct σ as [l s i g t c tr]. unfold_api. unfold_state.
  destruct (l !! thread) eqn:Hl; simpl.
  - destruct _save as [ts|]; simpl; [destruct (c !! ts); simpl |]; done.
  - rewrite (delete_id _ _ Hl).
    destruct _save as [ts|]; simpl; rewrite ?lookup_insert_eq; simpl; done.
Qed.

(** X11.  [loop] gives up the lock and its thread state for the time it
    is blocked and has both back when it returns: the run loop runs with
    the lock free and no current thread state, and on return the lock is
    held and the caller's thread state is current again, whatever
    happened in between. *)
Theorem X11_loop_releases_lock_while_blocked os (CFRunLoopRun : interp → interp)
    thread σ :
  let σ1 := (pyfsevents_loop_enter os thread σ).2 in
  let r := call (pyfsevents_loop os CFRunLoopRun thread) σ in
  gil_locked σ1 = false ∧ tstate_current σ1 = None
  ∧ gil_locked r.2 = true ∧ tstate_current r.2 = tstate_current σ.
Proof.
  simpl. rewrite pyfsevents_loop_unfold, pyfsevents_loop_enter_spec. simpl.
  split_and!; try done; apply pyfsevents_loop_leave_effect.
Qed.

(** X12.  When nothing else changes the loop dictionary while the thread
    is blocked, [loop] leaves it without the thread handle and otherwise
    as it found it.  An entry that [loop] created is removed again, and
    so is an entry that was already there when [loop] was called. *)
Theorem X12_loop_removes_entry os (CFRunLoopRun : interp → interp) thread σ :
  let σ1 := (pyfsevents_loop_enter os thread σ).2 in
  g__pydict_loops (CFRunLoopRun σ1) = g__pydict_loops σ1 →
  g__pydict_loops (call (pyfsevents_loop os CFRunLoopRun thread) σ).2
  = delete thread (g__pydict_loops σ).
Proof.
  simpl. rewrite pyfsevents_loop_unfold, pyfsevents_loop_enter_spec. simpl.
  intros Hrun.
  destruct (pyfsevents_loop_leave_effect (tstate_current σ) thread
              (CFRunLoopRun
                 (mkInterp
                    (if g__pydict_loops σ !! thread is Some _ then g__pydict_loops σ
                     else <[thread:=CFRunLoopGetCurrent os]> (g__pydict_loops σ))
                    (g__pydict_streams σ) (stream_infos σ) false None
                    (curexc σ) (trace σ)))) as (-> & _).
  rewrite Hrun.
  destruct (g__pydict_loops σ !! thread); [done | apply delete_insert_eq].
Qed.

Lemma X12_witness :
  let σ := set_loops (<[10:=7]>) scheduled.2 in
  let run := λ σ0 : interp, (call (pyfsevents_stop 10) σ0).2 in
  let σ1 := (pyfsevents_loop_enter 3 10 σ).2 in
  g__pydict_loops (run σ1) = g__pydict_loops σ1
  ∧ g__pydict_loops σ !! 10 = Some 7
  ∧ g__pydict_loops (call (pyfsevents_loop 3 run 10) σ).2
    = delete 10 (g__pydict_loops σ).
Proof.
  cbv zeta. split; [reflexivity |]. split; [reflexivity |].
  exact (X12_loop_removes_entry 3 (λ σ0 : interp, (call (pyfsevents_stop 10) σ0).2) 10
           (set_loops (<[10:=7]>) scheduled.2) eq_refl).
Defined.

(** X13.  With its entry still in the loop dictionary when the run loop
    ends, [loop] returns the null pointer exactly when an error is
    pending in the caller's thread state at that moment, and [None]
    otherwise; it sets no error of its own and clears none. *)
Theorem X13_loop_result_is_pending_error os (CFRunLoopRun : interp → interp)
    thread ts σ :
  let σ2 := CFRunLoopRun (pyfsevents_loop_enter os thread σ).2 in
  let r := call (pyfsevents_loop os CFRunLoopRun thread) σ in
  tstate_current σ = Some ts →
  is_Some (g__pydict_loops σ2 !! thread) →
  r.1 = (if curexc σ2 !! ts is Some _ then NULL else Py_None)
  ∧ curexc r.2 = curexc σ2.
Proof.
  simpl. intros Hts [l Hl].
  rewrite pyfsevents_loop_unfold.
  rewrite (pyfsevents_loop_leave_registered _ _ l) by exact Hl.
  simpl. by rewrite Hts.
Qed.

Lemma X13_witness :
  let run := λ σ0 : interp, (call (pyfsevents_stop 10) σ0).2 in
  let σ2 := run (pyfsevents_loop_enter 3 10 scheduled.2).2 in
  let r := call (pyfsevents_loop 3 run 10) scheduled.2 in
  tstate_current scheduled.2 = Some 1
  ∧ is_Some (g__pydict_loops σ2 !! 10)
  ∧ r.1 = (if curexc σ2 !! 1 is Some _ then NULL else Py_None)
  ∧ curexc r.2 = curexc σ2.
Proof.
  assert (L : is_Some (g__pydict_loops
                         (call (pyfsevents_stop 10)
                            (pyfsevents_loop_enter 3 10 scheduled.2).2).2 !! 10))
    by (exists 3; reflexivity).
  cbv zeta. split; [reflexivity |]. split; [exact L |].
  exact (X13_loop_result_is_pending_error 3
           (λ σ0 : interp, (call (pyfsevents_stop 10) σ0).2) 10 1 scheduled.2
           eq_refl L).
Defined.

(** X14.  When the entry of the thread handle has disappeared while the
    thread was blocked (another [loop] under the same handle has
    returned in the meantime), [loop] fails: deleting the entry raises
    [KeyError], and [loop] returns the null pointer with that error
    pending. *)
Theorem X14_loop_fails_when_entry_is_gone os (CFRunLoopRun : interp → interp)
    thread ts σ :
  let σ2 := CFRunLoopRun (pyfsevents_loop_enter os thread σ).2 in
  let r := call (pyfsevents_loop os CFRunLoopRun thread) σ in
  tstate_current σ = Some ts →
  g__pydict_loops σ2 !! thread = None →
  r.1 = NULL ∧ curexc r.2 !! ts = Some (KeyError thread).
Proof.
  simpl. intros Hts Hl. rewrite pyfsevents_loop_unfold. rewrite Hts.
  destruct (CFRunLoopRun (pyfsevents_loop_enter os thread σ).2)
    as [l s i g t c tr]. simpl in Hl.
  unfold_api. unfold_state. rewrite Hl. simpl. rewrite lookup_insert_eq. simpl.
  by rewrite lookup_insert_eq.
Qed.

Lemma X14_witness :
  let σ2 := nested_loop_run (pyfsevents_loop_enter 2 10 (init_fsevents 2)).2 in
  let r := call (pyfsevents_loop 2 nested_loop_run 10) (init_fsevents 2) in
  tstate_current (init_fsevents 2) = Some 2
  ∧ g__pydict_loops σ2 !! 10 = None
  ∧ r.1 = NULL ∧ curexc r.2 !! 2 = Some (KeyError 10).
Proof.
  cbv zeta. split; [reflexivity |]. split; [reflexivity |].
  exact (X14_loop_fails_when_entry_is_gone 2 nested_loop_run 10 2 (init_fsevents 2)
           eq_refl eq_refl).
Defined.

(** X15.  Once [loop] has returned, [stop] on its thread handle reaches
    no loop any more: it returns [None] and makes no call, whatever
    happened while the loop ran. *)
Theorem X15_stop_after_loop_reaches_nothing os (CFRunLoopRun : interp → interp)
    thread σ :
  let r := call (pyfsevents_loop os CFRunLoopRun thread) σ in
  let r' := call (pyfsevents_stop thread) r.2 in
  r'.1 = Py_None ∧ trace r'.2 = trace r.2
  ∧ g__pydict_loops r'.2 = g__pydict_loops r.2.
Proof.
  simpl. rewrite pyfsevents_loop_unfold.
  destruct (pyfsevents_loop_leave_frame (tstate_current σ) thread
              (CFRunLoopRun (pyfsevents_loop_enter os thread σ).2)) as (Hl & _).
  simpl in Hl.
  destruct (call (pyfsevents_loop_leave (tstate_current σ) thread)
              (CFRunLoopRun (pyfsevents_loop_enter os thread σ).2)) as [res σ3].
  simpl in *. destruct σ3 as [l s i g t c tr]. simpl in Hl.
  unfold_api. unfold_state. rewrite Hl.
  destruct t as [t|]; simpl; [destruct (c !! t); simpl |]; done.
Qed.

(** ** What holds in every reachable state *)

(** A step changes the stream dictionary and the information blocks in
    one of three ways: not at all, by removing one handle, or by
    registering an unregistered handle for a new stream together with
    the block of that stream. *)
Lemma step_streams_infos σ σ' :
  step σ σ' →
  (g__pydict_streams σ' = g__pydict_streams σ ∧ stream_infos σ' = stream_infos σ)
  ∨ (∃ h, g__pydict_streams σ' = delete h (g__pydict_streams σ)
          ∧ stream_infos σ' = stream_infos σ)
  ∨ (∃ h cb l ts,
       g__pydict_streams σ !! h = None
       ∧ g__pydict_streams σ' = <[h:=length (stream_infos σ)]> (g__pydict_streams σ)
       ∧ stream_infos σ'
         = stream_infos σ ++ [mkInfo cb (length (stream_infos σ)) l ts]).
Proof.
  intros [locked ts exc σ0 | os thread σ0 | _save thread σ0
         | env os thread stream callback paths σ0 | stream σ0 | thread σ0
         | env fs stream_info num_events event_paths event_masks σ0 Hfs].
  - by left.
  - left. by rewrite pyfsevents_loop_enter_spec.
  - left. split; apply pyfsevents_loop_leave_frame.
  - destruct (g__pydict_streams σ0 !! stream) as [fs|] eqn:Hs.
    { left. unfold_api. by rewrite Hs. }
    destruct (cf_array_ok env) eqn:Ha.
    + right. right. rewrite pyfsevents_schedule_absent by done. simpl. eauto 10.
    + left. unfold_api. by rewrite Hs, Ha.
  - destruct (g__pydict_streams σ0 !! stream) as [fs|] eqn:Hs.
    + right. left. rewrite (pyfsevents_unschedule_registered _ fs) by done.
      simpl. eauto.
    + left. destruct σ0 as [l s i g t c tr]. simpl in Hs.
      unfold_api. unfold_state. rewrite Hs. simpl.
      destruct t as [t|]; simpl; [destruct (c !! t); simpl |]; by rewrite ?Hs.
  - left. destruct σ0 as [l s i g t c tr]. unfold_api. unfold_state.
    destruct (l !! thread) eqn:Hl; simpl; [done |].
    destruct t as [t|]; simpl; [destruct (c !! t); simpl |]; done.
  - left. split;
      apply (event_stream_handler_cases env stream_info num_events
               event_paths event_masks σ0).
Qed.


(** Every step keeps the streams of the stream dictionary provided with
    their blocks. *)
Lemma reachable_streams ts σ :
  reachable ts σ → streams_have_blocks σ.
Proof.
  unfold reachable. revert σ. apply rtc_ind_r.
  { split; simpl; intros *; by rewrite ?lookup_nil, ?lookup_empty. }
  intros σ σ' _ Hstep [Hb Hd].
  destruct (step_streams_infos _ _ Hstep)
    as [[Es Ei] | [(h & Es & Ei) | (h & cb & l & t & Hh & Es & Ei)]].
  - unfold streams_have_blocks. rewrite Es, Ei. done.
  - unfold streams_have_blocks. rewrite Es, Ei. split.
    + done.
    + intros h' fs [_ H]%lookup_delete_Some. by eapply Hd.
  - unfold streams_have_blocks. rewrite Es, Ei. split.
    + intros fs info [H | [Hge H]]%lookup_app_Some; [by apply Hb |].
      destruct (fs - length (stream_infos σ)) as [|n] eqn:Hn; simpl in H;
        [| by rewrite lookup_nil in H].
      injection H as <-. simpl. lia.
    + intros h' fs [[_ <-] | [_ H]]%lookup_insert_Some; rewrite length_app; simpl.
      * lia.
      * apply Hd in H. lia.
Qed.

(** X16.  In every state the process can reach after initialisation, a
    stream handle in the stream dictionary names a stream whose
    information block exists, and that block records the same stream. *)
Theorem X16_registered_streams_have_blocks ts σ h fs :
  reachable ts σ →
  g__pydict_streams σ !! h = Some fs →
  ∃ stream_info, stream_infos σ !! fs = Some stream_info ∧ stream stream_info = fs.
Proof.
  intros Hr Hh. destruct (reachable_streams ts σ Hr) as [Hb Hd].
  destruct (lookup_lt_is_Some_2 (stream_infos σ) fs (Hd _ _ Hh)) as [info Hi].
  exists info. split; [done | by apply Hb].
Qed.

Lemma reachable_scheduled : reachable 1 scheduled.2.
Proof.
  apply rtc_once.
  exact (step_schedule (mkSchedule true true) 3 10 20 30 ["/tmp/watchme"%string]
           (init_fsevents 1)).
Qed.

Lemma reachable_delivered : reachable 1 delivered_state.
Proof.
  eapply rtc_r; [eapply rtc_r; [exact reachable_scheduled |] |].
  - exact (step_interpreter false None (curexc scheduled.2) scheduled.2).
  - exact (step_deliver (mkDelivery true true (λ _, true) (λ _, true) call_ok)
             0 delivery_info 2 ["/tmp/watchme/a"; "/tmp/watchme/b"]%string
             [256; 512]%Z delivery_state eq_refl).
Qed.

Lemma X16_witness :
  reachable 1 scheduled.2
  ∧ g__pydict_streams scheduled.2 !! 20 = Some 0
  ∧ ∃ stream_info,
      stream_infos scheduled.2 !! 0 = Some stream_info ∧ stream stream_info = 0.
Proof.
  split; [exact reachable_scheduled |]. split; [reflexivity |].
  exact (X16_registered_streams_have_blocks 1 scheduled.2 20 0
           reachable_scheduled eq_refl).
Defined.

(** Blocks are only added, so a call that belongs to a block keeps
    belonging to it. *)
Lemma callback_of_block_mono σ σ' c :
  (∃ new, stream_infos σ' = stream_infos σ ++ new) →
  callback_of_block σ c → callback_of_block σ' c.
Proof.
  intros [new Hnew]. destruct c; simpl; try done.
  intros (fs & info & Hi & Hcb & Hts). exists fs, info.
  rewrite Hnew. split_and!; try done. by apply lookup_app_l_Some.
Qed.

(** What a step adds to the log: calls of the engine, and in a delivery
    at most a call of the callback of the delivered block under the
    thread state stored in it. *)
Lemma step_trace σ σ' :
  step σ σ' →
  ∃ new, trace σ' = trace σ ++ new ∧ Forall (callback_of_block σ) new.
Proof.
  intros [locked ts exc σ0 | os thread σ0 | _save thread σ0
         | env os thread stream callback paths σ0 | stream σ0 | thread σ0
         | env fs stream_info num_events event_paths event_masks σ0 Hfs].
  - exists []. simpl. by rewrite app_nil_r.
  - exists []. rewrite pyfsevents_loop_enter_spec. simpl. by rewrite app_nil_r.
  - exists []. rewrite app_nil_r. split; [apply pyfsevents_loop_leave_frame | done].
  - destruct (g__pydict_streams σ0 !! stream) as [fs|] eqn:Hs.
    { exists []. unfold_api. rewrite Hs. simpl. by rewrite app_nil_r. }
    destruct (cf_array_ok env) eqn:Ha.
    + rewrite pyfsevents_schedule_absent by done. simpl.
      eexists. split; [done |]. destruct (start_ok env); by repeat constructor.
    + exists []. unfold_api. rewrite Hs, Ha. simpl. by rewrite app_nil_r.
  - destruct (g__pydict_streams σ0 !! stream) as [fs|] eqn:Hs.
    + rewrite (pyfsevents_unschedule_registered _ fs) by done. simpl.
      eexists. split; [done |]. by repeat constructor.
    + exists [call_FSEventStreamStop None; call_FSEventStreamInvalidate None;
              call_FSEventStreamRelease None].
      split; [| by repeat constructor].
      destruct σ0 as [l s i g t c tr]. simpl in Hs.
      unfold_api. unfold_state. rewrite Hs. simpl.
      destruct t as [t|]; simpl; [destruct (c !! t); simpl |];
        rewrite ?Hs; simpl; by rewrite <- !app_assoc.
  - destruct (g__pydict_loops σ0 !! thread) as [l|] eqn:Hl.
    + rewrite (pyfsevents_stop_registered thread l σ0 Hl). simpl.
      eexists. split; [done |]. by repeat constructor.
    + exists []. rewrite app_nil_r. split; [| done].
      destruct σ0 as [l s i g t c tr]. simpl in Hl.
      unfold_api. unfold_state. rewrite Hl. simpl.
      destruct t as [t|]; simpl; [destruct (c !! t); simpl |]; done.
  - destruct (event_stream_handler_cases env stream_info num_events
                event_paths event_masks σ0)
      as (_ & _ & _ & [(Et & _) | (pl & ml & Et & _)]); simpl in Et.
    + exists []. by rewrite app_nil_r.
    + eexists. split; [exact Et |]. constructor.
      * simpl. eauto.
      * unfold after_callback. destruct (callback_outcome env); by repeat constructor.
Qed.

Lemma reachable_trace ts σ :
  reachable ts σ → Forall (callback_of_block σ) (trace σ).
Proof.
  unfold reachable. revert σ. apply rtc_ind_r; [by constructor |].
  intros σ σ' _ Hstep IH.
  destruct (step_trace _ _ Hstep) as (new & -> & Hnew).
  pose proof (step_stream_infos _ _ Hstep) as Hmono.
  apply Forall_app. split; eapply Forall_impl; eauto;
    intros c; by apply callback_of_block_mono.
Qed.

(** X18.  In every reachable state, each call of a callback in the log
    was a call of the callback stored in an information block, made
    under the thread state stored in that same block: nothing is ever
    called that was not passed to [schedule], and never under a thread
    state other than the one recorded with it. *)
Theorem X18_only_scheduled_callbacks_are_called ts σ cb tstate a b :
  reachable ts σ →
  call_callback cb tstate a b ∈ trace σ →
  ∃ fs stream_info,
    stream_infos σ !! fs = Some stream_info
    ∧ callback_event_handler stream_info = cb
    ∧ thread_state stream_info = tstate.
Proof.
  intros Hr Hin.
  pose proof (reachable_trace ts σ Hr) as Hall.
  rewrite Forall_forall in Hall. exact (Hall _ Hin).
Qed.

Lemma X18_witness :
  reachable 1 delivered_state
  ∧ call_callback 30 (Some 1)
      [Some (PyString "/tmp/watchme/a"); Some (PyString "/tmp/watchme/b")]
      [Some (PyInt 256); Some (PyInt 512)] ∈ trace delivered_state
  ∧ ∃ fs stream_info,
      stream_infos delivered_state !! fs = Some stream_info
      ∧ callback_event_handler stream_info = 30
      ∧ thread_state stream_info = Some 1.
Proof.
  assert (Hin : call_callback 30 (Some 1)
                  [Some (PyString "/tmp/watchme/a"); Some (PyString "/tmp/watchme/b")]
                  [Some (PyInt 256); Some (PyInt 512)] ∈ trace delivered_state).
  { vm_compute. do 3 apply list_elem_of_further. apply list_elem_of_here. }
  split; [exact reachable_delivered |]. split; [exact Hin |].
  exact (X18_only_scheduled_callbacks_are_called 1 delivered_state 30 (Some 1) _ _
           reachable_delivered Hin).
Defined.
